(** * air-canvas: the gesture interpretation pipeline

    A shallow embedding of [src/utils/gestureRecognition.ts]: the static pose
    classifier [recognizeGesture], the trajectory buffer and shape fitter
    [ShapeRecognizer], and the temporal [GestureStabilizer].

    The TypeScript code computes on the JavaScript [number] type.  The
    embedding is written once over an interface [JsNumber] that lists the
    operations the source uses, and is read at two instances:
    - [Float64], IEEE 754 binary64 as the kernel's primitive floats: what
      the program computes when it runs;
    - [Exact], the same operations without rounding, on the real numbers
      extended with the infinities and NaN: the arithmetic in which the
      geometric statements of the specification are exact. *)

From Stdlib Require Import ZArith List Bool Lia Reals Lra.
From Stdlib Require Floats.PrimFloat Numbers.Cyclic.Int63.Uint63 Strings.String.
Import ListNotations.
Import (notations) PrimFloat.

Set Implicit Arguments.

Abbreviation float := PrimFloat.float.

(** ** The [number] interface *)

Declare Scope js_scope.
Delimit Scope js_scope with js.

Class JsNumber (num : Type) : Type := {
  (** the decimal literal [m]e-[e], e.g. [dec 85 2] for [0.85] *)
  dec : Z -> nat -> num;
  add : num -> num -> num;
  sub : num -> num -> num;
  mul : num -> num -> num;
  div : num -> num -> num;
  (** unary minus *)
  neg : num -> num;
  (** the global [Infinity] *)
  Infinity : num;
  (** [a < b], [a <= b] and [a === b] *)
  js_lt : num -> num -> bool;
  js_le : num -> num -> bool;
  js_eq : num -> num -> bool;
  Math_sqrt : num -> num;
  Math_abs : num -> num;
  Math_ceil : num -> num;
  Math_max : num -> num -> num;
  Math_min : num -> num -> num
}.

Infix "+" := add : js_scope.
Infix "-" := sub : js_scope.
Infix "*" := mul : js_scope.
Infix "/" := div : js_scope.
Infix "<?" := js_lt : js_scope.
Infix "<=?" := js_le : js_scope.
Infix "===" := js_eq (at level 70) : js_scope.
Notation "a >? b" := (js_lt b a) (at level 70) : js_scope.
Notation "a >=? b" := (js_le b a) (at level 70) : js_scope.

Section Derived.
Context {num : Type} `{JsNumber num}.

(** An integer-valued number: array lengths, counters, small constants. *)
Definition int (z : Z) : num := dec z 0.
Definition of_nat (n : nat) : num := int (Z.of_nat n).

(** [Math.pow(x, 2)], taken to be the square [x * x]. *)
Definition Math_pow2 (x : num) : num := (x * x)%js.
End Derived.

(** ** IEEE 754 binary64 *)

Module Float64.

Definition of_Z (z : Z) : float :=
  match z with
  | Zneg p => PrimFloat.opp (PrimFloat.of_uint63 (Uint63.of_Z (Zpos p)))
  | _ => PrimFloat.of_uint63 (Uint63.of_Z z)
  end.

(** A decimal literal denotes the double nearest to its value; for a
    mantissa below 2^53 and at most 22 decimals the numerator and the
    denominator are doubles, and their quotient is that nearest double. *)
Definition decimal (m : Z) (e : nat) : float :=
  PrimFloat.div (of_Z m) (of_Z (10 ^ Z.of_nat e)).

Definition two52 : float := PrimFloat.of_uint63 (Uint63.of_Z (2 ^ 52)).

(** [Math.ceil]: below 2^52 in magnitude, adding and removing 2^52 rounds
    to an integer, which is below the argument by less than one if at all;
    from 2^52 on every double is an integer, and the infinities and NaN
    are returned as they are.  (A zero result always has the sign +.) *)
Definition ceil (x : float) : float :=
  if PrimFloat.ltb (PrimFloat.abs x) two52 then
    let r := if PrimFloat.leb PrimFloat.zero x
             then PrimFloat.sub (PrimFloat.add x two52) two52
             else PrimFloat.add (PrimFloat.sub x two52) two52 in
    if PrimFloat.ltb r x then PrimFloat.add r PrimFloat.one else r
  else x.

(** [Math.max], [Math.min]: NaN if an argument is NaN; +0 is above -0. *)
Definition max (a b : float) : float :=
  if PrimFloat.is_nan a || PrimFloat.is_nan b then PrimFloat.nan
  else if PrimFloat.ltb a b then b
  else if PrimFloat.ltb b a then a
  else if PrimFloat.is_zero a then PrimFloat.add a b
  else a.

Definition min (a b : float) : float :=
  if PrimFloat.is_nan a || PrimFloat.is_nan b then PrimFloat.nan
  else if PrimFloat.ltb a b then a
  else if PrimFloat.ltb b a then b
  else if PrimFloat.is_zero a
       then PrimFloat.opp (PrimFloat.add (PrimFloat.opp a) (PrimFloat.opp b))
  else a.

#[global] Instance binary64 : JsNumber float := {|
  dec := decimal;
  add := PrimFloat.add;
  sub := PrimFloat.sub;
  mul := PrimFloat.mul;
  div := PrimFloat.div;
  neg := PrimFloat.opp;
  Infinity := PrimFloat.infinity;
  js_lt := PrimFloat.ltb;
  js_le := PrimFloat.leb;
  js_eq := PrimFloat.eqb;
  Math_sqrt := PrimFloat.sqrt;
  Math_abs := PrimFloat.abs;
  Math_ceil := ceil;
  Math_max := max;
  Math_min := min
|}.

End Float64.

(** ** Exact arithmetic

    The operations of [number] without rounding: a real number, an infinity
    or NaN.  There is one zero, which divides like +0. *)

Module Exact.

Inductive xreal : Type :=
| Fin (r : R)
| Inf (positive : bool)
| NaN.

Definition Rltb (x y : R) : bool := if Rlt_dec x y then true else false.
Definition Rleb (x y : R) : bool := if Rle_dec x y then true else false.
Definition Reqb (x y : R) : bool := if Req_dec_T x y then true else false.

Definition xdecimal (m : Z) (e : nat) : xreal :=
  Fin (IZR m / IZR (10 ^ Z.of_nat e)).

Definition xneg (a : xreal) : xreal :=
  match a with
  | Fin x => Fin (- x)
  | Inf s => Inf (negb s)
  | NaN => NaN
  end.

Definition xadd (a b : xreal) : xreal :=
  match a, b with
  | NaN, _ | _, NaN => NaN
  | Fin x, Fin y => Fin (x + y)
  | Fin _, Inf s | Inf s, Fin _ => Inf s
  | Inf s, Inf s' => if Bool.eqb s s' then Inf s else NaN
  end.

Definition xsub (a b : xreal) : xreal := xadd a (xneg b).

Definition xmul (a b : xreal) : xreal :=
  match a, b with
  | NaN, _ | _, NaN => NaN
  | Fin x, Fin y => Fin (x * y)
  | Fin x, Inf s | Inf s, Fin x =>
    if Reqb x 0 then NaN else Inf (Bool.eqb s (Rltb 0 x))
  | Inf s, Inf s' => Inf (Bool.eqb s s')
  end.

Definition xdiv (a b : xreal) : xreal :=
  match a, b with
  | NaN, _ | _, NaN => NaN
  | Fin x, Fin y =>
    if Reqb y 0 then (if Reqb x 0 then NaN else Inf (Rltb 0 x))
    else Fin (x / y)
  | Fin _, Inf _ => Fin 0
  | Inf s, Fin y => Inf (Bool.eqb s (Rleb 0 y))
  | Inf _, Inf _ => NaN
  end.

Definition xlt (a b : xreal) : bool :=
  match a, b with
  | Fin x, Fin y => Rltb x y
  | Fin _, Inf s => s
  | Inf s, Fin _ => negb s
  | Inf s, Inf s' => negb s && s'
  | _, _ => false
  end.

Definition xle (a b : xreal) : bool :=
  match a, b with
  | Fin x, Fin y => Rleb x y
  | Fin _, Inf s => s
  | Inf s, Fin _ => negb s
  | Inf s, Inf s' => negb s || s'
  | _, _ => false
  end.

Definition xeq (a b : xreal) : bool :=
  match a, b with
  | Fin x, Fin y => Reqb x y
  | Inf s, Inf s' => Bool.eqb s s'
  | _, _ => false
  end.

Definition xsqrt (a : xreal) : xreal :=
  match a with
  | Fin x => if Rltb x 0 then NaN else Fin (sqrt x)
  | Inf true => Inf true
  | _ => NaN
  end.

Definition xabs (a : xreal) : xreal :=
  match a with
  | Fin x => Fin (Rabs x)
  | Inf _ => Inf true
  | NaN => NaN
  end.

(** [up (- x)] is the integer just above [- x], so [1 - up (- x)] is the
    least integer that is not below [x]. *)
Definition xceil (a : xreal) : xreal :=
  match a with
  | Fin x => Fin (IZR (1 - up (- x)))
  | _ => a
  end.

Definition xmax (a b : xreal) : xreal :=
  match a, b with
  | NaN, _ | _, NaN => NaN
  | _, _ => if xlt a b then b else a
  end.

Definition xmin (a b : xreal) : xreal :=
  match a, b with
  | NaN, _ | _, NaN => NaN
  | _, _ => if xlt b a then b else a
  end.

#[global] Instance exact : JsNumber xreal := {|
  dec := xdecimal;
  add := xadd;
  sub := xsub;
  mul := xmul;
  div := xdiv;
  neg := xneg;
  Infinity := Inf true;
  js_lt := xlt;
  js_le := xle;
  js_eq := xeq;
  Math_sqrt := xsqrt;
  Math_abs := xabs;
  Math_ceil := xceil;
  Math_max := xmax;
  Math_min := xmin
|}.

End Exact.

(** ** Property access that can throw

    [a[i]] on an array yields [undefined] outside its bounds, and reading a
    property of [undefined] throws a TypeError.  An index expression whose
    result is dereferenced is therefore a partial lookup; [None] stands for
    the exception. *)

Definition Throws (A : Type) : Type := option A.

Definition index {A : Type} (a : list A) (i : nat) : Throws A := nth_error a i.

Notation "'let?' x ':=' e 'in' k" :=
  (match e with Some x => k | None => None end)
    (at level 10, x name, e at level 100, k at level 200).

(** ** Hand landmarks and the static pose classifier *)

Inductive GestureType : Type :=
  draw | erase | menu | none | line | rectangle | circle.

Section Classifier.
Context {num : Type} `{JsNumber num}.
Local Open Scope js_scope.

(** The fields [x], [y], [z] of a landmark, [x], [y] of a position and
    [type] of a result carry a prefix here, field names being global. *)
Record HandLandmark : Type := { lx : num; ly : num; lz : num }.

Record Position : Type := { px : num; py : num }.

Record GestureResult : Type :=
  { gtype : GestureType; position : Position; confidence : num }.

(** The [LANDMARKS] table. *)
Definition THUMB_TIP : nat := 4.
Definition INDEX_FINGER_TIP : nat := 8.
Definition INDEX_FINGER_PIP : nat := 6.
Definition MIDDLE_FINGER_TIP : nat := 12.
Definition MIDDLE_FINGER_PIP : nat := 10.
Definition RING_FINGER_TIP : nat := 16.
Definition PINKY_TIP : nat := 20.
Definition WRIST : nat := 0.

Definition calculateDistance (point1 point2 : HandLandmark) : num :=
  let dx := lx point1 - lx point2 in
  let dy := ly point1 - ly point2 in
  Math_sqrt (dx * dx + dy * dy).

Definition isFingerExtended (landmarks : list HandLandmark)
    (tipIndex pipIndex : nat) : Throws bool :=
  let? tip := index landmarks tipIndex in
  let? pip := index landmarks pipIndex in
  let? wrist := index landmarks WRIST in
  let tipToWrist := calculateDistance tip wrist in
  let pipToWrist := calculateDistance pip wrist in
  Some (tipToWrist >? pipToWrist).

Definition isDrawingGesture (landmarks : list HandLandmark) : Throws bool :=
  let? indexExtended := isFingerExtended landmarks INDEX_FINGER_TIP INDEX_FINGER_PIP in
  let? middleExtended := isFingerExtended landmarks MIDDLE_FINGER_TIP MIDDLE_FINGER_PIP in
  let? ringExtended := isFingerExtended landmarks RING_FINGER_TIP (RING_FINGER_TIP - 2) in
  Some (indexExtended && negb middleExtended && negb ringExtended).

Definition isErasingGesture (landmarks : list HandLandmark) : Throws bool :=
  let? indexExtended := isFingerExtended landmarks INDEX_FINGER_TIP INDEX_FINGER_PIP in
  let? middleExtended := isFingerExtended landmarks MIDDLE_FINGER_TIP MIDDLE_FINGER_PIP in
  let? ringExtended := isFingerExtended landmarks RING_FINGER_TIP (RING_FINGER_TIP - 2) in
  let? pinkyExtended := isFingerExtended landmarks PINKY_TIP (PINKY_TIP - 2) in
  Some (negb indexExtended && negb middleExtended && negb ringExtended
        && negb pinkyExtended).

Definition isMenuGesture (landmarks : list HandLandmark) : Throws bool :=
  let? indexExtended := isFingerExtended landmarks INDEX_FINGER_TIP INDEX_FINGER_PIP in
  let? middleExtended := isFingerExtended landmarks MIDDLE_FINGER_TIP MIDDLE_FINGER_PIP in
  let? ringExtended := isFingerExtended landmarks RING_FINGER_TIP (RING_FINGER_TIP - 2) in
  let? pinkyExtended := isFingerExtended landmarks PINKY_TIP (PINKY_TIP - 2) in
  Some (indexExtended && middleExtended && ringExtended && pinkyExtended).

Definition isLineGesture (landmarks : list HandLandmark) : Throws bool :=
  let? indexExtended := isFingerExtended landmarks INDEX_FINGER_TIP INDEX_FINGER_PIP in
  let? middleExtended := isFingerExtended landmarks MIDDLE_FINGER_TIP MIDDLE_FINGER_PIP in
  let? ringExtended := isFingerExtended landmarks RING_FINGER_TIP (RING_FINGER_TIP - 2) in
  let? pinkyExtended := isFingerExtended landmarks PINKY_TIP (PINKY_TIP - 2) in
  Some (indexExtended && middleExtended && negb ringExtended
        && negb pinkyExtended).

Definition isCircleGesture (landmarks : list HandLandmark) : Throws bool :=
  let? thumbTip := index landmarks THUMB_TIP in
  let? indexTip := index landmarks INDEX_FINGER_TIP in
  let? middleExtended := isFingerExtended landmarks MIDDLE_FINGER_TIP MIDDLE_FINGER_PIP in
  let thumbIndexDistance := calculateDistance thumbTip indexTip in
  Some ((thumbIndexDistance <? dec 5 2) && middleExtended).

Definition isRectangleGesture (landmarks : list HandLandmark) : Throws bool :=
  let? thumbTip := index landmarks THUMB_TIP in
  let? thumbIp := index landmarks (THUMB_TIP - 1) in
  let thumbExtended := ly thumbTip <? ly thumbIp in
  let? indexExtended := isFingerExtended landmarks INDEX_FINGER_TIP INDEX_FINGER_PIP in
  let? middleExtended := isFingerExtended landmarks MIDDLE_FINGER_TIP MIDDLE_FINGER_PIP in
  let? ringExtended := isFingerExtended landmarks RING_FINGER_TIP (RING_FINGER_TIP - 2) in
  Some (thumbExtended && negb indexExtended && negb middleExtended
        && negb ringExtended).

(** The result of the guard of [recognizeGesture]. *)
Definition noGesture : GestureResult :=
  {| gtype := none; position := {| px := int 0; py := int 0 |};
     confidence := int 0 |}.

(** [landmarks] is [None] for a [null] or [undefined] argument, which the
    guard [!landmarks] catches. *)
Definition recognizeGesture (landmarks : option (list HandLandmark))
    : Throws GestureResult :=
  match landmarks with
  | None => Some noGesture
  | Some landmarks =>
    if (length landmarks <? 21)%nat then Some noGesture
    else
      let? indexTip := index landmarks INDEX_FINGER_TIP in
      let position := {| px := int 1 - lx indexTip; py := ly indexTip |} in
      let? isLine := isLineGesture landmarks in
      if isLine
      then Some {| gtype := line; position := position; confidence := dec 85 2 |}
      else
      let? isCircle := isCircleGesture landmarks in
      if isCircle
      then Some {| gtype := circle; position := position; confidence := dec 8 1 |}
      else
      let? isRectangle := isRectangleGesture landmarks in
      if isRectangle
      then Some {| gtype := rectangle; position := position; confidence := dec 8 1 |}
      else
      let? isDrawing := isDrawingGesture landmarks in
      if isDrawing
      then Some {| gtype := draw; position := position; confidence := dec 8 1 |}
      else
      let? isErasing := isErasingGesture landmarks in
      if isErasing
      then Some {| gtype := erase; position := position; confidence := dec 7 1 |}
      else
      let? isMenu := isMenuGesture landmarks in
      if isMenu
      then Some {| gtype := menu; position := position; confidence := dec 9 1 |}
      else Some {| gtype := none; position := position; confidence := int 0 |}
  end.

End Classifier.

Arguments HandLandmark num : clear implicits.
Arguments Position num : clear implicits.
Arguments GestureResult num : clear implicits.

(** ** Methods: state passing with exceptions

    A method of a class is a function of the state of its object; it either
    throws or returns a value and the new state. *)

Definition Method (St A : Type) : Type := St -> Throws (A * St).

Definition ret {St A : Type} (a : A) : Method St A := fun s => Some (a, s).

Definition bind {St A B : Type} (m : Method St A) (k : A -> Method St B)
    : Method St B :=
  fun s => match m s with Some (a, s') => k a s' | None => None end.

Definition read {St A : Type} (f : St -> A) : Method St A :=
  fun s => Some (f s, s).

Definition update {St : Type} (f : St -> St) : Method St unit :=
  fun s => Some (tt, f s).

Definition deref {St A : Type} (o : Throws A) : Method St A :=
  fun s => match o with Some a => Some (a, s) | None => None end.

Declare Scope method_scope.
Delimit Scope method_scope with method.
Notation "x <- m ;; k" := (bind m (fun x => k))
  (at level 61, m at next level, right associativity) : method_scope.
Notation "m ;;; k" := (bind m (fun _ => k))
  (at level 61, right associativity) : method_scope.

(** A loop over [indices] that updates an accumulator: the body runs for
    each index in turn, and an exception in it ends the loop. *)
Fixpoint for_each {St A I : Type} (indices : list I) (acc : A)
    (body : I -> A -> Method St A) : Method St A :=
  match indices with
  | [] => ret acc
  | i :: rest => bind (body i acc) (fun acc' => for_each rest acc' body)
  end.

(** ** Arrays *)

(** [a.push(x)] and [a.shift()] (the removed element is not used). *)
Definition push {A : Type} (a : list A) (x : A) : list A := a ++ [x].
Definition shift {A : Type} (a : list A) : list A := tl a.

(** [a.sort(compare)]: the sort is stable; [compare x y < 0] puts [x]
    first, [compare x y > 0] puts [y] first. *)
Section Sort.
Variable A : Type.
Variable compare : A -> A -> Z.

Fixpoint sort_insert (x : A) (sorted : list A) : list A :=
  match sorted with
  | [] => [x]
  | y :: rest =>
    if (compare x y <=? 0)%Z then x :: y :: rest
    else y :: sort_insert x rest
  end.

Fixpoint sort (a : list A) : list A :=
  match a with
  | [] => []
  | x :: rest => sort_insert x (sort rest)
  end.
End Sort.

(** ** The trajectory buffer and the shape fitter *)

Inductive ShapeKind : Type :=
  shape_line | shape_circle | shape_rectangle | shape_none.

Section ShapeRecognizer.
Context {num : Type} `{JsNumber num}.
Local Open Scope js_scope.
Local Open Scope method_scope.

(** [x], [y] and [timestamp] of a track point. *)
Record TrackPoint : Type := { tx : num; ty : num; timestamp : num }.

(** The [points] payload of a fit. *)
Inductive ShapePoints : Type :=
| LinePoints (start end_ : TrackPoint)
| CirclePoints (center : TrackPoint) (radius : num)
| RectanglePoints (topLeft bottomRight : TrackPoint).

(** The result of a fit; [fit_confidence] is its field [confidence], and
    [points] is absent in the result [{shape: 'none', confidence: 0}]. *)
Record ShapeResult : Type :=
  { shape : ShapeKind; fit_confidence : num; points : option ShapePoints }.

(** The private field of the class, and the wall clock its methods read:
    [wallClock k] is what the [k]-th coming call of [Date.now()] returns. *)
Record ShapeRecognizer : Type :=
  { trackPoints : list TrackPoint; wallClock : nat -> num }.

Definition maxTrackPoints : nat := 50.
Definition minPointsForRecognition : nat := 10.

(** [Date.now()] takes the next reading of the clock. *)
Definition after_reading (s : ShapeRecognizer) : ShapeRecognizer :=
  {| trackPoints := trackPoints s; wallClock := fun k => wallClock s (S k) |}.

Definition Date_now : Method ShapeRecognizer num :=
  fun s => Some (wallClock s 0%nat, after_reading s).

Definition set_trackPoints (f : list TrackPoint -> list TrackPoint)
    : Method ShapeRecognizer unit :=
  update (fun s => {| trackPoints := f (trackPoints s);
                      wallClock := wallClock s |}).

Definition addPoint (point : Position num) : Method ShapeRecognizer unit :=
  now <- Date_now ;;
  set_trackPoints
    (fun a => push a {| tx := px point; ty := py point; timestamp := now |}) ;;;
  len <- read (fun s => length (trackPoints s)) ;;
  if (maxTrackPoints <? len)%nat then set_trackPoints shift else ret tt.

Definition pointToLineDistance (point lineStart lineEnd : TrackPoint) : num :=
  let A := tx point - tx lineStart in
  let B := ty point - ty lineStart in
  let C := tx lineEnd - tx lineStart in
  let D := ty lineEnd - ty lineStart in
  let dot := A * C + B * D in
  let lenSq := C * C + D * D in
  if lenSq === int 0 then Math_sqrt (A * A + B * B)
  else
    let param := dot / lenSq in
    let '(xx, yy) :=
      if param <? int 0 then (tx lineStart, ty lineStart)
      else if param >? int 1 then (tx lineEnd, ty lineEnd)
      else (tx lineStart + param * C, ty lineStart + param * D) in
    let dx := tx point - xx in
    let dy := ty point - yy in
    Math_sqrt (dx * dx + dy * dy).

Definition detectLine : Method ShapeRecognizer ShapeResult :=
  a <- read trackPoints ;;
  start <- deref (index a 0) ;;
  end_ <- deref (index a (length a - 1)) ;;
  let lineLength :=
    Math_sqrt (Math_pow2 (tx end_ - tx start) + Math_pow2 (ty end_ - ty start)) in
  totalDeviation <-
    for_each (seq 1 (length a - 2)) (int 0) (fun i totalDeviation =>
      point <- deref (index a i) ;;
      let deviation := pointToLineDistance point start end_ in
      ret (totalDeviation + deviation)) ;;
  let avgDeviation := totalDeviation / int (Z.of_nat (length a) - 2) in
  let confidence := Math_max (int 0) (int 1 - avgDeviation * int 10) in
  ret {| shape := shape_line;
         fit_confidence := if lineLength >? dec 1 1 then confidence else int 0;
         points := Some (LinePoints start end_) |}.

Definition detectCircle : Method ShapeRecognizer ShapeResult :=
  a <- read trackPoints ;;
  let '(centerX, centerY) :=
    fold_left (fun '(centerX, centerY) point =>
                 (centerX + tx point, centerY + ty point))
              a (int 0, int 0) in
  let centerX := centerX / of_nat (length a) in
  let centerY := centerY / of_nat (length a) in
  now <- Date_now ;;
  let center := {| tx := centerX; ty := centerY; timestamp := now |} in
  let radius_of point :=
    Math_sqrt (Math_pow2 (tx point - centerX) + Math_pow2 (ty point - centerY)) in
  let totalRadius :=
    fold_left (fun totalRadius point => totalRadius + radius_of point)
              a (int 0) in
  let avgRadius := totalRadius / of_nat (length a) in
  let radiusDeviation :=
    fold_left (fun radiusDeviation point =>
                 radiusDeviation + Math_abs (radius_of point - avgRadius))
              a (int 0) in
  let avgDeviation := radiusDeviation / of_nat (length a) in
  let confidence := Math_max (int 0) (int 1 - avgDeviation * int 15) in
  ret {| shape := shape_circle;
         fit_confidence := if avgRadius >? dec 5 2 then confidence else int 0;
         points := Some (CirclePoints center avgRadius) |}.

Definition detectRectangle : Method ShapeRecognizer ShapeResult :=
  a <- read trackPoints ;;
  let '(minX, minY, maxX, maxY) :=
    fold_left (fun '(minX, minY, maxX, maxY) point =>
                 (Math_min minX (tx point), Math_min minY (ty point),
                  Math_max maxX (tx point), Math_max maxY (ty point)))
              a (Infinity, Infinity, neg Infinity, neg Infinity) in
  let width := maxX - minX in
  let height := maxY - minY in
  let tolerance := dec 5 2 in
  let edgePoints :=
    fold_left (fun edgePoints point =>
                 let nearLeftEdge := Math_abs (tx point - minX) <? tolerance in
                 let nearRightEdge := Math_abs (tx point - maxX) <? tolerance in
                 let nearTopEdge := Math_abs (ty point - minY) <? tolerance in
                 let nearBottomEdge := Math_abs (ty point - maxY) <? tolerance in
                 if nearLeftEdge || nearRightEdge || nearTopEdge || nearBottomEdge
                 then S edgePoints else edgePoints)
              a 0%nat in
  let edgeRatio := of_nat edgePoints / of_nat (length a) in
  let aspectRatio := Math_min width height / Math_max width height in
  let confidence := edgeRatio * aspectRatio in
  now1 <- Date_now ;;
  now2 <- Date_now ;;
  ret {| shape := shape_rectangle;
         fit_confidence :=
           if (width >? dec 1 1) && (height >? dec 1 1) then confidence else int 0;
         points := Some (RectanglePoints
                           {| tx := minX; ty := minY; timestamp := now1 |}
                           {| tx := maxX; ty := maxY; timestamp := now2 |}) |}.

Definition noShape : ShapeResult :=
  {| shape := shape_none; fit_confidence := int 0; points := None |}.

Definition recognizeShape : Method ShapeRecognizer ShapeResult :=
  len <- read (fun s => length (trackPoints s)) ;;
  if (len <? minPointsForRecognition)%nat then ret noShape
  else
    lineResult <- detectLine ;;
    if fit_confidence lineResult >? dec 7 1 then ret lineResult
    else
      circleResult <- detectCircle ;;
      if fit_confidence circleResult >? dec 6 1 then ret circleResult
      else
        rectangleResult <- detectRectangle ;;
        if fit_confidence rectangleResult >? dec 6 1 then ret rectangleResult
        else ret noShape.

Definition clearTrack : Method ShapeRecognizer unit :=
  set_trackPoints (fun _ => []).

(** [[...this.trackPoints]]: a copy of the array. *)
Definition getTrackPoints : Method ShapeRecognizer (list TrackPoint) :=
  read trackPoints.

(** [new ShapeRecognizer()] under a given clock. *)
Definition new_ShapeRecognizer (clock : nat -> num) : ShapeRecognizer :=
  {| trackPoints := []; wallClock := clock |}.

End ShapeRecognizer.

Arguments TrackPoint num : clear implicits.
Arguments ShapePoints num : clear implicits.
Arguments ShapeResult num : clear implicits.
Arguments ShapeRecognizer num : clear implicits.

(** ** The temporal stabilizer *)

Definition GestureType_eqb (a b : GestureType) : bool :=
  match a, b with
  | draw, draw | erase, erase | menu, menu | none, none
  | line, line | rectangle, rectangle | circle, circle => true
  | _, _ => false
  end.

(** The tally object [gestureCount]: its keys are the gesture names, which
    [Object.entries] lists in the order in which they were first assigned. *)
Definition Tally : Type := list (GestureType * nat).

Fixpoint tally_get (t : Tally) (k : GestureType) : option nat :=
  match t with
  | [] => None
  | (k', c) :: rest => if GestureType_eqb k' k then Some c else tally_get rest k
  end.

Fixpoint tally_set (t : Tally) (k : GestureType) (c : nat) : Tally :=
  match t with
  | [] => [(k, c)]
  | (k', c') :: rest =>
    if GestureType_eqb k' k then (k', c) :: rest
    else (k', c') :: tally_set rest k c
  end.

(** [gestureCount[k] = (gestureCount[k] || 0) + 1] *)
Definition tally_count (t : Tally) (k : GestureType) : Tally :=
  tally_set t k (match tally_get t k with Some c => c | None => 0 end + 1).

(** The comparison [([,a], [,b]) => b - a]. *)
Definition by_count_descending (x y : GestureType * nat) : Z :=
  (Z.of_nat (snd y) - Z.of_nat (snd x))%Z.

Section GestureStabilizer.
Context {num : Type} `{JsNumber num}.
Local Open Scope js_scope.
Local Open Scope method_scope.

Record GestureStabilizer : Type :=
  { gestureHistory : list (GestureResult num) }.

Definition historySize : nat := 5.
Definition confidenceThreshold : num := dec 6 1.

Definition set_gestureHistory
    (f : list (GestureResult num) -> list (GestureResult num))
    : Method GestureStabilizer unit :=
  update (fun s => {| gestureHistory := f (gestureHistory s) |}).

Definition tally (history : list (GestureResult num)) : Tally :=
  fold_left (fun gestureCount g => tally_count gestureCount (gtype g))
            history [].

Definition addGesture (gesture : GestureResult num)
    : Method GestureStabilizer (GestureResult num) :=
  set_gestureHistory (fun a => push a gesture) ;;;
  len <- read (fun s => length (gestureHistory s)) ;;
  (if (historySize <? len)%nat then set_gestureHistory shift else ret tt) ;;;
  history <- read gestureHistory ;;
  let gestureCount := tally history in
  let mostFrequent := hd_error (sort by_count_descending gestureCount) in
  match mostFrequent with
  | Some (kind, count) =>
    if of_nat count >=? Math_ceil (of_nat historySize * confidenceThreshold)
    then
      recentGesture <- deref (index history (length history - 1)) ;;
      ret {| gtype := kind;
             position := position recentGesture;
             confidence := of_nat count / of_nat historySize |}
    else
      ret {| gtype := none; position := position gesture; confidence := int 0 |}
  | None =>
    ret {| gtype := none; position := position gesture; confidence := int 0 |}
  end.

Definition reset : Method GestureStabilizer unit :=
  set_gestureHistory (fun _ => []).

Definition new_GestureStabilizer : GestureStabilizer :=
  {| gestureHistory := [] |}.

End GestureStabilizer.

Arguments GestureStabilizer num : clear implicits.

(** ** Specification-side definitions

    What the statements below compare the code with. *)

Section Specification.
Context {num : Type} `{JsNumber num}.
Local Open Scope js_scope.

(** The pose predicates in their priority order, each with the kind and
    the confidence it stands for. *)
Definition priority_order
    : list ((list (HandLandmark num) -> Throws bool) * GestureType * num) :=
  [ (isLineGesture, line, dec 85 2);
    (isCircleGesture, circle, dec 8 1);
    (isRectangleGesture, rectangle, dec 8 1);
    (isDrawingGesture, draw, dec 8 1);
    (isErasingGesture, erase, dec 7 1);
    (isMenuGesture, menu, dec 9 1) ].

(** First match wins; [none] with confidence 0 when no predicate holds. *)
Fixpoint first_match
    (poses : list ((list (HandLandmark num) -> Throws bool) * GestureType * num))
    (landmarks : list (HandLandmark num)) : Throws (GestureType * num) :=
  match poses with
  | [] => Some (none, int 0)
  | (holds, kind, conf) :: rest =>
    let? b := holds landmarks in
    if b then Some (kind, conf) else first_match rest landmarks
  end.

(** The cursor position of an index fingertip: the horizontal axis is
    mirrored. *)
Definition mirrored (indexTip : HandLandmark num) : Position num :=
  {| px := int 1 - lx indexTip; py := ly indexTip |}.

(** How often a kind occurs in a window of raw results. *)
Definition occurrences (kind : GestureType) (window : list (GestureResult num))
    : nat :=
  length (filter (fun g => GestureType_eqb (gtype g) kind) window).

(** The window after a raw result has been pushed: the last [historySize]
    entries. *)
Definition window_after (history : list (GestureResult num))
    (gesture : GestureResult num) : list (GestureResult num) :=
  let a := history ++ [gesture] in
  skipn (length a - historySize) a.

(** The history that [addGesture] leaves: the push, and one shift when
    the length has passed [historySize]. *)
Definition pushed (history : list (GestureResult num))
    (gesture : GestureResult num) : list (GestureResult num) :=
  let a := push history gesture in
  if (historySize <? length a)%nat then shift a else a.

(** Feeding raw results one after the other; the result of the last one. *)
Fixpoint feed (gestures : list (GestureResult num))
    (last : option (GestureResult num))
    : Method (GestureStabilizer num) (option (GestureResult num)) :=
  match gestures with
  | [] => ret last
  | g :: rest => bind (addGesture g) (fun r => feed rest (Some r))
  end.

(** Adding cursor positions one after the other. *)
Fixpoint addPoints (ps : list (Position num))
    : Method (ShapeRecognizer num) unit :=
  match ps with
  | [] => ret tt
  | p :: rest => bind (addPoint p) (fun _ => addPoints rest)
  end.

(** The track points that [addPoints] makes of positions, each stamped
    with the next reading of the clock. *)
Fixpoint stamped (clock : nat -> num) (ps : list (Position num))
    : list (TrackPoint num) :=
  match ps with
  | [] => []
  | p :: rest =>
    {| tx := px p; ty := py p; timestamp := clock 0%nat |}
      :: stamped (fun k => clock (S k)) rest
  end.

End Specification.

(** Counting kinds, and the kinds of a list in the order of their first
    occurrence. *)
Definition count_kind (k : GestureType) (ks : list GestureType) : nat :=
  length (filter (fun k' => GestureType_eqb k' k) ks).

Fixpoint firsts (ks : list GestureType) : list GestureType :=
  match ks with
  | [] => []
  | k :: rest => k :: filter (fun k' => negb (GestureType_eqb k k')) (firsts rest)
  end.

(** The entry of a tally that a stable descending sort puts first: the
    first one among those with the highest count. *)
Fixpoint first_max (t : Tally) : option (GestureType * nat) :=
  match t with
  | [] => None
  | x :: rest =>
    match first_max rest with
    | None => Some x
    | Some y => if (snd y <=? snd x)%nat then Some x else Some y
    end
  end.

(** The tally of a list of kinds. *)
Definition tally_kinds (ks : list GestureType) : Tally :=
  fold_left tally_count ks [].

(** The tally with the keys [F] and the counts [f]. *)
Definition entries (f : GestureType -> nat) (F : list GestureType) : Tally :=
  map (fun k => (k, f k)) F.

(** ** Concrete inputs (binary64) *)

Module Samples.
Import Float64.
Local Open Scope float_scope.

Definition landmark (x y : float) : HandLandmark float :=
  {| lx := x; ly := y; lz := PrimFloat.zero |}.

(** A hand with the wrist at (0.5, 0.9), index and middle finger
    stretched upwards, ring and pinky folded. *)
Definition two_fingers : list (HandLandmark float) :=
  [ landmark (decimal 5 1) (decimal 9 1);
    landmark (decimal 4 1) (decimal 8 1);
    landmark (decimal 35 2) (decimal 7 1);
    landmark (decimal 3 1) (decimal 65 2);
    landmark (decimal 28 2) (decimal 6 1);
    landmark (decimal 45 2) (decimal 6 1);
    landmark (decimal 45 2) (decimal 5 1);
    landmark (decimal 45 2) (decimal 4 1);
    landmark (decimal 45 2) (decimal 3 1);
    landmark (decimal 5 1) (decimal 6 1);
    landmark (decimal 5 1) (decimal 5 1);
    landmark (decimal 5 1) (decimal 4 1);
    landmark (decimal 5 1) (decimal 3 1);
    landmark (decimal 55 2) (decimal 6 1);
    landmark (decimal 55 2) (decimal 65 2);
    landmark (decimal 55 2) (decimal 7 1);
    landmark (decimal 55 2) (decimal 75 2);
    landmark (decimal 6 1) (decimal 65 2);
    landmark (decimal 6 1) (decimal 7 1);
    landmark (decimal 6 1) (decimal 75 2);
    landmark (decimal 6 1) (decimal 8 1) ].

(** The same hand with the thumb tip brought onto the index fingertip:
    the line pose and the circle pose at once. *)
Definition two_fingers_pinched : list (HandLandmark float) :=
  firstn 4 two_fingers ++ [landmark (decimal 45 2) (decimal 31 2)]
    ++ skipn 5 two_fingers.

(** One landmark too many. *)
Definition twenty_two : list (HandLandmark float) :=
  two_fingers ++ [landmark PrimFloat.zero PrimFloat.zero].

Definition raw (kind : GestureType) (x y : Z) : GestureResult float :=
  {| gtype := kind;
     position := {| px := decimal x 2; py := decimal y 2 |};
     confidence := decimal 8 1 |}.

Definition stabilizer_of (kinds : list GestureType) : GestureStabilizer float :=
  {| gestureHistory := map (fun k => raw k 50 50) kinds |}.

Definition clock (k : nat) : float := of_nat (1000 + k).

(** [n + 1] cursor positions from (0.1, 0.1) to (0.8, 0.1) at equal
    steps. *)
Definition on_line (n : nat) : list (Position float) :=
  map (fun i => {| px := decimal 1 1 + decimal 7 1 * of_nat i / of_nat n;
                   py := decimal 1 1 |}%js)
      (seq 0 (S n)).

Definition recognizer_with (ps : list (Position float)) : ShapeRecognizer float :=
  {| trackPoints := stamped clock ps; wallClock := clock |}.

End Samples.

(** ** Concrete inputs (exact arithmetic) *)

Module ExactSamples.
Import Exact.
Local Open Scope R_scope.

(** Eleven points from (0.1, 0.1) to (0.8, 0.1), a tenth of the way
    apart. *)
Definition sample (i : Z) : TrackPoint xreal :=
  {| tx := Fin (1 / 10 + IZR i / 10 * (8 / 10 - 1 / 10));
     ty := Fin (1 / 10 + IZR i / 10 * (1 / 10 - 1 / 10));
     timestamp := Fin (IZR i) |}.

Definition interior : list (TrackPoint xreal) :=
  map sample [1; 2; 3; 4; 5; 6; 7; 8; 9]%Z.

Definition recognizer : ShapeRecognizer xreal :=
  {| trackPoints := sample 0 :: interior ++ [sample 10];
     wallClock := fun k => Fin (INR k) |}.

End ExactSamples.

(** ** The callers: [App] and [Canvas]

    The parts of [App.tsx] and [components/Canvas.tsx] that drive the
    stabilizer and the shape recognizer; what they paint is left out. *)

Section Callers.
Context {num : Type} `{JsNumber num}.
Local Open Scope js_scope.
Local Open Scope method_scope.

(** [HandResults]; a field that is [null] or [undefined] is [None]. *)
Record HandResults : Type :=
  { multiHandLandmarks : option (list (list (HandLandmark num))) }.

(** The state of [App] that its effect on [results] touches: the
    stabilizer behind the ref and the state variable [currentGesture]. *)
Record App : Type :=
  { gestureStabilizer : GestureStabilizer num;
    currentGesture : GestureResult num }.

Definition new_App : App :=
  {| gestureStabilizer := new_GestureStabilizer; currentGesture := noGesture |}.

Definition setCurrentGesture (g : GestureResult num) : Method App unit :=
  update (fun a => {| gestureStabilizer := gestureStabilizer a;
                      currentGesture := g |}).

(** A method of the stabilizer, called on [gestureStabilizer.current]. *)
Definition on_stabilizer {A : Type} (m : Method (GestureStabilizer num) A)
    : Method App A :=
  fun a =>
    match m (gestureStabilizer a) with
    | Some (x, st) =>
      Some (x, {| gestureStabilizer := st; currentGesture := currentGesture a |})
    | None => None
    end.

(** The effect of [App] on [results]: the first hand is classified and
    stabilized; without a hand the current gesture is the zero result. *)
Definition results_effect (results : option HandResults) : Method App unit :=
  match results with
  | Some {| multiHandLandmarks := Some hands |} =>
    if (0 <? length hands)%nat then
      let landmarks := index hands 0 in
      gesture <- deref (recognizeGesture landmarks) ;;
      stabilizedGesture <- on_stabilizer (addGesture gesture) ;;
      setCurrentGesture stabilizedGesture
    else setCurrentGesture noGesture
  | _ => setCurrentGesture noGesture
  end.

(** The props that [App] derives from [currentGesture] for [Canvas]. *)
Definition isDrawing (g : GestureResult num) : bool :=
  GestureType_eqb (gtype g) draw && (confidence g >? dec 6 1).

Definition isErasing (g : GestureResult num) : bool :=
  GestureType_eqb (gtype g) erase && (confidence g >? dec 6 1).

Definition isVectorDrawing (g : GestureResult num) : bool :=
  existsb (fun k => GestureType_eqb k (gtype g)) [line; rectangle; circle]
  && (confidence g >? dec 6 1).

Definition currentPoint (g : GestureResult num) : option (Position num) :=
  if confidence g >? dec 3 1 then Some (position g) else None.

(** [VectorShape].  The [id] of a recognized shape is the template
    [auto_<kind>_${Date.now()}], kept as its two parts. *)
Inductive ShapeId : Type := auto_id (kind : ShapeKind) (now : num).

Inductive VectorPoints : Type :=
| LineGeometry (start end_ : Position num)
| CircleGeometry (center : Position num) (radius : num)
| RectangleGeometry (topLeft bottomRight : Position num).

Record VectorShape : Type :=
  { vtype : ShapeKind; shape_id : ShapeId; color : String.string;
    strokeWidth : num; geometry : VectorPoints }.

Record DrawingSettings : Type :=
  { settings_color : String.string; brushSize : num; eraserSize : num;
    vectorMode : bool }.

(** The state of [Canvas] that [handleShapeRecognition] touches: the
    recognizer prop (optional), the state variable [vectorShapes], and the
    shapes handed to the callback [onShapeComplete], in order. *)
Record Canvas : Type :=
  { shapeRecognizer : option (ShapeRecognizer num);
    vectorShapes : list VectorShape;
    completed : list VectorShape }.

(** A method of the recognizer, called on the prop. *)
Definition on_recognizer {A : Type} (m : Method (ShapeRecognizer num) A)
    : Method Canvas A :=
  fun c =>
    match shapeRecognizer c with
    | Some r =>
      match m r with
      | Some (x, r') =>
        Some (x, {| shapeRecognizer := Some r'; vectorShapes := vectorShapes c;
                    completed := completed c |})
      | None => None
      end
    | None => None
    end.

Definition addVectorShape (v : VectorShape) : Method Canvas unit :=
  update (fun c => {| shapeRecognizer := shapeRecognizer c;
                      vectorShapes := vectorShapes c ++ [v];
                      completed := completed c |}).

Definition onShapeComplete (v : VectorShape) : Method Canvas unit :=
  update (fun c => {| shapeRecognizer := shapeRecognizer c;
                      vectorShapes := vectorShapes c;
                      completed := completed c ++ [v] |}).

Definition xy (p : TrackPoint num) : Position num :=
  {| px := tx p; py := ty p |}.

Definition handleShapeRecognition (drawingSettings : DrawingSettings)
    : Method Canvas unit :=
  fun c =>
    match shapeRecognizer c with
    | None => Some (tt, c)
    | Some _ =>
      (recognizedShape <- on_recognizer recognizeShape ;;
       match (if fit_confidence recognizedShape >? dec 7 1
              then points recognizedShape else None) with
       | Some pts =>
         vectorShape <-
           match shape recognizedShape, pts with
           | shape_line, LinePoints start end_ =>
             now <- on_recognizer Date_now ;;
             ret (Some {| vtype := shape_line; shape_id := auto_id shape_line now;
                          color := settings_color drawingSettings;
                          strokeWidth := brushSize drawingSettings;
                          geometry := LineGeometry (xy start) (xy end_) |})
           | shape_circle, CirclePoints center radius =>
             now <- on_recognizer Date_now ;;
             ret (Some {| vtype := shape_circle; shape_id := auto_id shape_circle now;
                          color := settings_color drawingSettings;
                          strokeWidth := brushSize drawingSettings;
                          geometry := CircleGeometry (xy center) radius |})
           | shape_rectangle, RectanglePoints topLeft bottomRight =>
             now <- on_recognizer Date_now ;;
             ret (Some {| vtype := shape_rectangle;
                          shape_id := auto_id shape_rectangle now;
                          color := settings_color drawingSettings;
                          strokeWidth := brushSize drawingSettings;
                          geometry := RectangleGeometry (xy topLeft)
                                                        (xy bottomRight) |})
           | _, _ => ret None
           end ;;
         match vectorShape with
         | Some v =>
           addVectorShape v ;;; onShapeComplete v ;;; on_recognizer clearTrack
         | None => ret tt
         end
       | None => ret tt
       end) c
    end.

End Callers.

Arguments HandResults num : clear implicits.
Arguments App num : clear implicits.
Arguments VectorShape num : clear implicits.
Arguments DrawingSettings num : clear implicits.
Arguments Canvas num : clear implicits.

(** Running the effect of [App] on the results of successive frames. *)
Fixpoint frames {num : Type} `{JsNumber num}
    (rs : list (option (HandResults num))) : Method (App num) unit :=
  match rs with
  | [] => ret tt
  | r :: rest => bind (results_effect r) (fun _ => frames rest)
  end.

(** A frame in which a hand was found. *)
Definition has_hand {num : Type} (r : option (HandResults num)) : bool :=
  match r with
  | Some {| multiHandLandmarks := Some (_ :: _) |} => true
  | _ => false
  end.

(** The last [n] entries of a list. *)
Definition lastn {A : Type} (n : nat) (l : list A) : list A :=
  skipn (length l - n) l.

(** The pose predicate of a kind; [none] has none. *)
Definition pose {num : Type} `{JsNumber num} (kind : GestureType)
    : list (HandLandmark num) -> Throws bool :=
  match kind with
  | line => isLineGesture
  | circle => isCircleGesture
  | rectangle => isRectangleGesture
  | draw => isDrawingGesture
  | erase => isErasingGesture
  | menu => isMenuGesture
  | none => fun _ => Some false
  end.

(** The confidence that [recognizeGesture] gives with a kind. *)
Definition confidence_of {num : Type} `{JsNumber num} (kind : GestureType) : num :=
  match kind with
  | line => dec 85 2
  | circle | rectangle | draw => dec 8 1
  | erase => dec 7 1
  | menu => dec 9 1
  | none => int 0
  end.

(** The landmarks that the pose predicates look at. *)
Definition landmarks_read : list nat := [0; 3; 4; 6; 8; 10; 12; 14; 16; 18; 20].

(** The geometry that [handleShapeRecognition] copies out of a fit: the
    points without their timestamps. *)
Definition geometry_of {num : Type} (pts : ShapePoints num) : VectorPoints (num := num) :=
  match pts with
  | LinePoints start end_ => LineGeometry (xy start) (xy end_)
  | CirclePoints center radius => CircleGeometry (xy center) radius
  | RectanglePoints topLeft bottomRight =>
    RectangleGeometry (xy topLeft) (xy bottomRight)
  end.

(** ** More concrete inputs (binary64) *)

Module Hands.
Import Float64.

(** The four joints of a finger at the height [x] (in hundredths),
    stretched upwards or folded back towards the wrist. *)
Definition finger (x : Z) (extended : bool) : list (HandLandmark float) :=
  if extended
  then [Samples.landmark (decimal x 2) (decimal 60 2);
        Samples.landmark (decimal x 2) (decimal 50 2);
        Samples.landmark (decimal x 2) (decimal 40 2);
        Samples.landmark (decimal x 2) (decimal 30 2)]
  else [Samples.landmark (decimal x 2) (decimal 60 2);
        Samples.landmark (decimal x 2) (decimal 65 2);
        Samples.landmark (decimal x 2) (decimal 70 2);
        Samples.landmark (decimal x 2) (decimal 75 2)].

(** A hand with the wrist at (0.5, 0.9), the thumb tip where it is told,
    and the four fingers as told. *)
Definition hand (thumbTip : HandLandmark float)
    (indexExtended middleExtended ringExtended pinkyExtended : bool)
    : list (HandLandmark float) :=
  [Samples.landmark (decimal 50 2) (decimal 90 2);
   Samples.landmark (decimal 40 2) (decimal 80 2);
   Samples.landmark (decimal 35 2) (decimal 70 2);
   Samples.landmark (decimal 30 2) (decimal 65 2);
   thumbTip]
  ++ finger 45 indexExtended ++ finger 50 middleExtended
  ++ finger 55 ringExtended ++ finger 60 pinkyExtended.

(** An open hand with the thumb tip on the index fingertip. *)
Definition open_pinched : list (HandLandmark float) :=
  hand (Samples.landmark (decimal 45 2) (decimal 31 2)) true true true true.

(** A fist with the thumb up. *)
Definition thumb_up : list (HandLandmark float) :=
  hand (Samples.landmark (decimal 28 2) (decimal 60 2)) false false false false.

End Hands.

(** ** The fits in exact arithmetic

    What the fitters of [ShapeRecognizer] compute when every coordinate is
    a real number: sums from the left, means, the distance to a segment
    and the bounding box, written on [R]. *)

Module ExactGeometry.
Import Exact.
Local Open Scope R_scope.

(** The real number that a finite number is. *)
Definition real (a : xreal) : R := match a with Fin x => x | _ => 0 end.

Definition rx (p : TrackPoint xreal) : R := real (tx p).
Definition ry (p : TrackPoint xreal) : R := real (ty p).

(** A track point with real coordinates. *)
Definition finite_point (p : TrackPoint xreal) : Prop :=
  tx p = Fin (rx p) /\ ty p = Fin (ry p).

(** The sum of [g] over a buffer, added up from the left as the code does. *)
Definition total (g : TrackPoint xreal -> R) (a : list (TrackPoint xreal)) : R :=
  fold_left (fun r p => r + g p) a 0.

Definition dist (x1 y1 x2 y2 : R) : R :=
  sqrt ((x1 - x2) * (x1 - x2) + (y1 - y2) * (y1 - y2)).

(** The distance from (x, y) to the segment from (sx, sy) to (ex, ey),
    with the projection clamped as [pointToLineDistance] clamps it. *)
Definition segment_distance (x y sx sy ex ey : R) : R :=
  let A := x - sx in
  let B := y - sy in
  let C := ex - sx in
  let D := ey - sy in
  let dot := A * C + B * D in
  let lenSq := C * C + D * D in
  if Req_dec_T lenSq 0 then sqrt (A * A + B * B)
  else
    let param := dot / lenSq in
    let xx := if Rlt_dec param 0 then sx
              else if Rlt_dec 1 param then ex else sx + param * C in
    let yy := if Rlt_dec param 0 then sy
              else if Rlt_dec 1 param then ey else sy + param * D in
    sqrt ((x - xx) * (x - xx) + (y - yy) * (y - yy)).

(** The distance from (x, y) to the point at [u] along the segment, with
    [u = 0] at its start and [u = 1] at its end. *)
Definition distance_along (x y sx sy ex ey u : R) : R :=
  dist x y (sx + u * (ex - sx)) (sy + u * (ey - sy)).

(** [Math.min] and [Math.max] on real numbers, as they compare. *)
Definition rmin (a x : R) : R := if Rlt_dec x a then x else a.
Definition rmax (a x : R) : R := if Rlt_dec a x then x else a.

(** The least and the greatest value of [g] over a buffer. *)
Definition minimum (g : TrackPoint xreal -> R) (a : list (TrackPoint xreal)) : R :=
  match a with
  | [] => 0
  | p :: rest => fold_left (fun m q => rmin m (g q)) rest (g p)
  end.

Definition maximum (g : TrackPoint xreal -> R) (a : list (TrackPoint xreal)) : R :=
  match a with
  | [] => 0
  | p :: rest => fold_left (fun m q => rmax m (g q)) rest (g p)
  end.

(** The centroid of a buffer, the distance of a point from a centre, and
    the mean of [g] over a buffer. *)
Definition mean (g : TrackPoint xreal -> R) (a : list (TrackPoint xreal)) : R :=
  total g a / INR (length a).

Definition radius_at (cx cy : R) (p : TrackPoint xreal) : R :=
  dist (rx p) (ry p) cx cy.

End ExactGeometry.

Module ExactShapes.
Import Exact.
Local Open Scope R_scope.

Definition at_ (x y : R) : TrackPoint xreal :=
  {| tx := Fin x; ty := Fin y; timestamp := Fin 0 |}.

(** Four points at distance 0.1 from the origin. *)
Definition diamond : list (TrackPoint xreal) :=
  [at_ (1 / 10) 0; at_ 0 (1 / 10); at_ (- (1 / 10)) 0; at_ 0 (- (1 / 10))].

(** Three corners of a box 0.4 wide and 0.2 high. *)
Definition corners : list (TrackPoint xreal) :=
  [at_ (1 / 10) (1 / 10); at_ (5 / 10) (1 / 10); at_ (5 / 10) (3 / 10)].

Definition recognizer_of (a : list (TrackPoint xreal)) : ShapeRecognizer xreal :=
  {| trackPoints := a; wallClock := fun k => Fin (INR k) |}.

End ExactShapes.

(** * Properties *)

(** ** Literals and constants at binary64 *)

#[warnings="-inexact-float"]
Lemma Float64_literals :
  (dec 5 2 : float) = 0.05%float /\ (dec 1 1 : float) = 0.1%float /\
  (dec 6 1 : float) = 0.6%float /\ (dec 7 1 : float) = 0.7%float /\
  (dec 8 1 : float) = 0.8%float /\ (dec 85 2 : float) = 0.85%float /\
  (dec 9 1 : float) = 0.9%float /\ (int 15 : float) = 15%float.
Proof. vm_compute. repeat split. Qed.

#[warnings="-inexact-float"]
Lemma Float64_ceil_samples :
  map Float64.ceil
      [0.5; 1; 2.0000001; 2.9999999999999996; 3; 3.0000000000000004; -1.5;
       4503599627370497; PrimFloat.infinity; PrimFloat.neg_infinity]%float
  = [1; 1; 3; 3; 3; 4; -1; 4503599627370497; PrimFloat.infinity;
     PrimFloat.neg_infinity]%float
  /\ Float64.ceil PrimFloat.nan = PrimFloat.nan.
Proof. vm_compute. split; reflexivity. Qed.

(** [Math.ceil(this.historySize * this.confidenceThreshold)] is 3: the
    product rounds to 3 at binary64, and is 3 in exact arithmetic. *)
Lemma Float64_threshold :
  (Math_ceil (of_nat historySize * confidenceThreshold)%js : float) = 3%float.
Proof. vm_compute. reflexivity. Qed.

Lemma Exact_threshold :
  (Math_ceil (of_nat historySize * confidenceThreshold)%js : Exact.xreal)
  = Exact.Fin 3.
Proof.
  unfold of_nat, int, confidenceThreshold, historySize.
  cbn [Math_ceil mul dec Exact.exact]. unfold Exact.xdecimal.
  cbn [Exact.xmul Exact.xceil].
  change (Z.of_nat 5) with 5%Z. change (10 ^ Z.of_nat 0)%Z with 1%Z.
  change (10 ^ Z.of_nat 1)%Z with 10%Z.
  rewrite <- (tech_up (- (5 / 1 * (6 / 10)))%R (-2)%Z); [reflexivity|lra|lra].
Qed.

(** ** The static pose classifier *)

Section ClassifierFacts.
Context {num : Type} `{JsNumber num}.
Local Open Scope js_scope.

(** An array of at least 21 landmarks, entry by entry. *)
Lemma at_least_21 (landmarks : list (HandLandmark num)) :
  21 <= length landmarks ->
  exists l0 l1 l2 l3 l4 l5 l6 l7 l8 l9 l10 l11 l12 l13 l14 l15 l16 l17 l18
         l19 l20 rest,
    landmarks = l0 :: l1 :: l2 :: l3 :: l4 :: l5 :: l6 :: l7 :: l8 :: l9
                :: l10 :: l11 :: l12 :: l13 :: l14 :: l15 :: l16 :: l17
                :: l18 :: l19 :: l20 :: rest.
Proof.
  intros Hlen.
  do 21 (destruct landmarks as [|? landmarks]; [simpl in Hlen; lia|]).
  repeat eexists.
Qed.

Lemma short_guard (landmarks : list (HandLandmark num)) :
  21 <= length landmarks -> (length landmarks <? 21)%nat = false.
Proof. intros; apply Nat.ltb_ge; assumption. Qed.

End ClassifierFacts.

Ltac open_hand landmarks Hlen :=
  let E := fresh "E" in
  pose proof (short_guard _ Hlen) as E;
  destruct (at_least_21 _ Hlen)
    as (l0 & l1 & l2 & l3 & l4 & l5 & l6 & l7 & l8 & l9 & l10 & l11 & l12
        & l13 & l14 & l15 & l16 & l17 & l18 & l19 & l20 & rest & ->);
  unfold recognizeGesture; rewrite E; clear E Hlen.

Ltac run_poses :=
  unfold isLineGesture, isCircleGesture, isRectangleGesture, isDrawingGesture,
    isErasingGesture, isMenuGesture, isFingerExtended, index in *;
  simpl in *.

Ltac split_ifs :=
  repeat match goal with
         | |- context [if ?b then _ else _] => destruct b eqn:?
         end.

Section ClassifierTheorems.
Context {num : Type} `{JsNumber num}.
Local Open Scope js_scope.

(** With 21 landmarks or more no lookup of [recognizeGesture] leaves the
    array: the call returns. *)
Lemma recognizeGesture_returns (landmarks : option (list (HandLandmark num))) :
  exists r, recognizeGesture landmarks = Some r.
Proof.
  destruct landmarks as [landmarks|]; [|eexists; reflexivity].
  destruct (Nat.ltb_spec (length landmarks) 21) as [Hlt|Hge].
  - unfold recognizeGesture.
    apply Nat.ltb_lt in Hlt. rewrite Hlt. eexists; reflexivity.
  - open_hand landmarks Hge. run_poses. split_ifs; eexists; reflexivity.
Qed.

(** C1, as the code has it: the guard of [recognizeGesture] is
    [!landmarks || landmarks.length < 21].  Every call returns (none
    throws), and an array of fewer than 21 landmarks, like a missing one,
    yields exactly [{type: none, position: (0,0), confidence: 0}]. *)
Theorem recognizeGesture_short_input :
  (forall landmarks : option (list (HandLandmark num)),
      exists r, recognizeGesture landmarks = Some r) /\
  (forall landmarks : list (HandLandmark num),
      length landmarks < 21 ->
      recognizeGesture (Some landmarks) = Some noGesture) /\
  recognizeGesture (num := num) None = Some noGesture.
Proof.
  split; [|split].
  - apply recognizeGesture_returns.
  - intros landmarks Hlt. unfold recognizeGesture.
    apply Nat.ltb_lt in Hlt. rewrite Hlt. reflexivity.
  - reflexivity.
Qed.

(** The line pose excludes the draw pose: the former needs the middle
    finger extended, the latter needs it folded. *)
Lemma line_excludes_draw (landmarks : list (HandLandmark num)) :
  isLineGesture landmarks = Some true ->
  isDrawingGesture landmarks = Some false.
Proof.
  unfold isLineGesture, isDrawingGesture.
  destruct (isFingerExtended landmarks INDEX_FINGER_TIP INDEX_FINGER_PIP)
    as [[|]|]; try discriminate;
  destruct (isFingerExtended landmarks MIDDLE_FINGER_TIP MIDDLE_FINGER_PIP)
    as [[|]|]; try discriminate;
  destruct (isFingerExtended landmarks RING_FINGER_TIP (RING_FINGER_TIP - 2))
    as [[|]|]; try discriminate;
  destruct (isFingerExtended landmarks PINKY_TIP (PINKY_TIP - 2))
    as [[|]|]; try discriminate; reflexivity.
Qed.


(** The same order for every hand, in the line pose or not. *)
Lemma recognizeGesture_first_match (landmarks : list (HandLandmark num)) :
  21 <= length landmarks ->
  exists indexTip kind conf,
    index landmarks INDEX_FINGER_TIP = Some indexTip /\
    first_match priority_order landmarks = Some (kind, conf) /\
    recognizeGesture (Some landmarks)
    = Some {| gtype := kind; position := mirrored indexTip;
              confidence := conf |}.
Proof.
  intros Hlen.
  open_hand landmarks Hlen.
  exists l8. run_poses.
  split_ifs; do 2 eexists; repeat split; reflexivity.
Qed.

(** C6: on 21 landmarks (or more) the position of the result is
    [(1 - indexTip.x, indexTip.y)] for landmark 8, whichever kind is
    returned. *)
Theorem recognizeGesture_position (landmarks : list (HandLandmark num)) :
  21 <= length landmarks ->
  exists indexTip r,
    index landmarks INDEX_FINGER_TIP = Some indexTip /\
    recognizeGesture (Some landmarks) = Some r /\
    position r = {| px := int 1 - lx indexTip; py := ly indexTip |}.
Proof.
  intros Hlen.
  open_hand landmarks Hlen.
  exists l8. run_poses.
  split_ifs; eexists; repeat split; reflexivity.
Qed.

End ClassifierTheorems.

(** C1 as stated fails above 21: an array of 22 landmarks passes the guard
    and is classified like a hand. *)
Lemma recognizeGesture_long_input_counterexample :
  length Samples.twenty_two <> 21 /\
  recognizeGesture (Some Samples.twenty_two) <> Some noGesture /\
  recognizeGesture (Some Samples.twenty_two)
  = Some {| gtype := line;
            position := {| px := dec 55 2; py := dec 3 1 |};
            confidence := dec 85 2 |}.
Proof. repeat split; vm_compute; discriminate || reflexivity. Qed.

Lemma recognizeGesture_short_input_witness :
  recognizeGesture (Some (firstn 20 Samples.two_fingers)) = Some noGesture.
Proof.
  apply (proj1 (proj2 recognizeGesture_short_input)
               (firstn 20 Samples.two_fingers)).
  vm_compute. lia.
Defined.


(** The pinched hand is in the line pose and in the circle pose at once;
    the order decides for line. *)
Lemma line_before_circle :
  isLineGesture Samples.two_fingers_pinched = Some true /\
  isCircleGesture Samples.two_fingers_pinched = Some true /\
  option_map (@gtype float) (recognizeGesture (Some Samples.two_fingers_pinched))
  = Some line.
Proof. vm_compute. repeat split. Qed.

Lemma recognizeGesture_position_witness :
  exists indexTip r,
    index Samples.two_fingers INDEX_FINGER_TIP = Some indexTip /\
    recognizeGesture (Some Samples.two_fingers) = Some r /\
    position r = {| px := int 1 - lx indexTip; py := ly indexTip |}%js.
Proof.
  apply (recognizeGesture_position Samples.two_fingers).
  vm_compute. lia.
Defined.

(** ** Tallies and their sort *)

Lemma GestureType_eqb_eq (a b : GestureType) :
  GestureType_eqb a b = true <-> a = b.
Proof. destruct a, b; simpl; split; intros E; congruence. Qed.

Lemma GestureType_eqb_refl (a : GestureType) : GestureType_eqb a a = true.
Proof. destruct a; reflexivity. Qed.

Lemma GestureType_eqb_neq (a b : GestureType) :
  GestureType_eqb a b = false <-> a <> b.
Proof. destruct a, b; simpl; split; intros E; congruence. Qed.

Lemma GestureType_eqb_sym (a b : GestureType) :
  GestureType_eqb a b = GestureType_eqb b a.
Proof. destruct a, b; reflexivity. Qed.

Section SortFacts.
Variable A : Type.
Variable compare : A -> A -> Z.

Lemma sort_insert_head (x : A) (l : list A) :
  hd_error (sort_insert compare x l)
  = match hd_error l with
    | None => Some x
    | Some y => if (compare x y <=? 0)%Z then Some x else Some y
    end.
Proof. destruct l as [|y l]; simpl; [|destruct (compare x y <=? 0)%Z]; reflexivity. Qed.
End SortFacts.

Lemma sort_head (t : Tally) :
  hd_error (sort by_count_descending t) = first_max t.
Proof.
  induction t as [|x t IH]; simpl; [reflexivity|].
  rewrite sort_insert_head, IH.
  destruct (first_max t) as [y|]; [|reflexivity].
  unfold by_count_descending.
  destruct (Nat.leb_spec (snd y) (snd x)) as [Hle|Hgt].
  - destruct (Z.leb_spec (Z.of_nat (snd y) - Z.of_nat (snd x)) 0); [reflexivity|lia].
  - destruct (Z.leb_spec (Z.of_nat (snd y) - Z.of_nat (snd x)) 0); [lia|reflexivity].
Qed.

Lemma first_max_none (t : Tally) : first_max t = None -> t = [].
Proof.
  destruct t as [|x t]; [reflexivity|]. simpl.
  destruct (first_max t) as [y|]; [|discriminate].
  destruct (snd y <=? snd x)%nat; discriminate.
Qed.

(** The entry chosen: everything before it has a strictly lower count, and
    nothing has a higher one. *)
Lemma first_max_spec (t : Tally) (x : GestureType * nat) :
  first_max t = Some x ->
  exists pre post,
    t = pre ++ x :: post /\
    (forall y, In y pre -> snd y < snd x) /\
    (forall y, In y post -> snd y <= snd x).
Proof.
  revert x. induction t as [|a t IH]; intros x; simpl; [discriminate|].
  destruct (first_max t) as [y|] eqn:Ey.
  - destruct (IH y eq_refl) as (pre & post & -> & Hpre & Hpost).
    destruct (Nat.leb_spec (snd y) (snd a)) as [Hle|Hgt]; intros [= <-].
    + exists [], (pre ++ y :: post). repeat split; [intros ? []|].
      intros z Hz. apply in_app_or in Hz. destruct Hz as [Hz|[<-|Hz]].
      * specialize (Hpre z Hz). lia.
      * assumption.
      * specialize (Hpost z Hz). lia.
    + exists (a :: pre), post. repeat split; [|assumption].
      intros z [<-|Hz]; [assumption|auto].
  - apply first_max_none in Ey. subst t. intros [= <-].
    exists [], []. repeat split; intros ? [].
Qed.

Lemma In_existsb (k : GestureType) (ks : list GestureType) :
  existsb (fun k' => GestureType_eqb k' k) ks = true <-> In k ks.
Proof.
  rewrite existsb_exists. split.
  - intros (k' & Hin & E). apply GestureType_eqb_eq in E. subst. assumption.
  - intros Hin. exists k. split; [assumption|apply GestureType_eqb_refl].
Qed.

Lemma count_kind_app (k : GestureType) (ks ks' : list GestureType) :
  count_kind k (ks ++ ks') = count_kind k ks + count_kind k ks'.
Proof. unfold count_kind. rewrite filter_app, length_app. reflexivity. Qed.

Lemma count_kind_absent (k : GestureType) (ks : list GestureType) :
  ~ In k ks -> count_kind k ks = 0.
Proof.
  unfold count_kind. induction ks as [|k' ks IH]; simpl; intros Hn; [reflexivity|].
  destruct (GestureType_eqb k' k) eqn:E.
  - apply GestureType_eqb_eq in E. subst. tauto.
  - apply IH. tauto.
Qed.

Lemma count_kind_present (k : GestureType) (ks : list GestureType) :
  In k ks -> 0 < count_kind k ks.
Proof.
  unfold count_kind. induction ks as [|k' ks IH]; simpl; [tauto|].
  intros [->|Hin].
  - rewrite GestureType_eqb_refl. simpl. lia.
  - destruct (GestureType_eqb k' k); simpl; [lia|auto].
Qed.

Lemma firsts_In (k : GestureType) (ks : list GestureType) :
  In k (firsts ks) <-> In k ks.
Proof.
  induction ks as [|k' ks IH]; simpl; [tauto|].
  rewrite filter_In, IH.
  destruct (GestureType_eqb k' k) eqn:E.
  - apply GestureType_eqb_eq in E. subst. simpl. intuition discriminate.
  - simpl. tauto.
Qed.

Lemma firsts_NoDup (ks : list GestureType) : NoDup (firsts ks).
Proof.
  induction ks as [|k ks IH]; simpl; constructor.
  - rewrite filter_In, GestureType_eqb_refl. simpl. intros [_ E]. discriminate.
  - apply NoDup_filter. assumption.
Qed.

Lemma firsts_snoc (ks : list GestureType) (k0 : GestureType) :
  firsts (ks ++ [k0])
  = if existsb (fun k' => GestureType_eqb k' k0) ks
    then firsts ks else firsts ks ++ [k0].
Proof.
  induction ks as [|k ks IH]; simpl; [reflexivity|].
  rewrite IH.
  destruct (GestureType_eqb k k0) eqn:E; simpl.
  - destruct (existsb _ ks); [reflexivity|].
    rewrite filter_app. simpl. rewrite E. simpl. rewrite app_nil_r. reflexivity.
  - destruct (existsb _ ks); [reflexivity|].
    rewrite filter_app. simpl. rewrite E. reflexivity.
Qed.

Section TallyOfMap.
Variable f : GestureType -> nat.

Lemma tally_get_entries (F : list GestureType) (k0 : GestureType) :
  tally_get (entries f F) k0
  = if existsb (fun k' => GestureType_eqb k' k0) F then Some (f k0) else None.
Proof.
  induction F as [|k F IH]; simpl; [reflexivity|].
  destruct (GestureType_eqb k k0) eqn:E; simpl; [|assumption].
  apply GestureType_eqb_eq in E. subst. reflexivity.
Qed.

Lemma tally_set_absent (F : list GestureType) (k0 : GestureType) (c : nat) :
  ~ In k0 F -> tally_set (entries f F) k0 c = entries f F ++ [(k0, c)].
Proof.
  induction F as [|k F IH]; simpl; intros Hn; [reflexivity|].
  destruct (GestureType_eqb k k0) eqn:E.
  - apply GestureType_eqb_eq in E. tauto.
  - rewrite IH by tauto. reflexivity.
Qed.
End TallyOfMap.

Lemma tally_set_present (f : GestureType -> nat) (F : list GestureType)
    (k0 : GestureType) (c : nat) :
  NoDup F -> In k0 F ->
  tally_set (entries f F) k0 c
  = entries (fun k => if GestureType_eqb k k0 then c else f k) F.
Proof.
  induction F as [|k F IH]; simpl; intros Hnd Hin; [tauto|].
  inversion Hnd as [|? ? Hk HF]; subst.
  destruct (GestureType_eqb k k0) eqn:E.
  - apply GestureType_eqb_eq in E. subst k0. f_equal.
    unfold entries. apply map_ext_in. intros k' Hk'.
    destruct (GestureType_eqb k' k) eqn:E'; [|reflexivity].
    apply GestureType_eqb_eq in E'. subst. tauto.
  - f_equal. apply IH; [assumption|].
    destruct Hin as [->|Hin]; [|assumption].
    rewrite GestureType_eqb_refl in E. discriminate.
Qed.

Lemma count_kind_singleton (k k0 : GestureType) :
  count_kind k [k0] = if GestureType_eqb k0 k then 1 else 0.
Proof. unfold count_kind. simpl. destruct (GestureType_eqb k0 k); reflexivity. Qed.

Lemma existsb_firsts (k0 : GestureType) (ks : list GestureType) :
  existsb (fun k' => GestureType_eqb k' k0) (firsts ks)
  = existsb (fun k' => GestureType_eqb k' k0) ks.
Proof.
  destruct (existsb _ ks) eqn:E.
  - apply In_existsb, firsts_In, In_existsb. assumption.
  - destruct (existsb _ (firsts ks)) eqn:E'; [|reflexivity].
    apply (proj1 (In_existsb _ _)) in E'. apply (proj1 (firsts_In _ _)) in E'.
    apply (proj2 (In_existsb _ _)) in E'. congruence.
Qed.

(** The tally lists every kind once, in the order of first occurrence, with
    the number of its occurrences. *)
Lemma tally_kinds_entries (ks : list GestureType) :
  tally_kinds ks = entries (fun k => count_kind k ks) (firsts ks).
Proof.
  induction ks as [|k0 ks IH] using rev_ind; [reflexivity|].
  unfold tally_kinds in *. rewrite fold_left_app. simpl. rewrite IH.
  unfold tally_count. rewrite tally_get_entries, firsts_snoc, existsb_firsts.
  destruct (existsb _ ks) eqn:E.
  - apply In_existsb in E.
    rewrite tally_set_present by (apply firsts_NoDup || (apply firsts_In; assumption)).
    apply map_ext. intros k. rewrite count_kind_app, count_kind_singleton.
    rewrite (GestureType_eqb_sym k k0).
    destruct (GestureType_eqb k0 k) eqn:E'; simpl; [|rewrite Nat.add_0_r; reflexivity].
    apply (proj1 (GestureType_eqb_eq _ _)) in E'. subst. reflexivity.
  - assert (Hn : ~ In k0 ks).
    { intros Hin. apply In_existsb in Hin. congruence. }
    rewrite tally_set_absent by (rewrite firsts_In; assumption).
    unfold entries. rewrite map_app. simpl. f_equal.
    + apply map_ext_in. intros k Hk. rewrite count_kind_app, count_kind_singleton.
      apply (proj1 (firsts_In _ _)) in Hk.
      destruct (GestureType_eqb k0 k) eqn:E'; [|rewrite Nat.add_0_r; reflexivity].
      apply (proj1 (GestureType_eqb_eq _ _)) in E'. subst. tauto.
    + rewrite count_kind_app, (count_kind_absent _ _ Hn), count_kind_singleton.
      rewrite GestureType_eqb_refl. reflexivity.
Qed.

Lemma filter_split (A : Type) (f : A -> bool) (l p q : list A) (x : A) :
  filter f l = p ++ x :: q ->
  exists p' q', l = p' ++ x :: q' /\ filter f p' = p /\ f x = true.
Proof.
  revert p. induction l as [|a l IH]; intros p; simpl.
  - destruct p; discriminate.
  - destruct (f a) eqn:Ea.
    + destruct p as [|b p]; simpl; intros [= -> E].
      * exists [], l. simpl. auto.
      * destruct (IH p E) as (p' & q' & -> & <- & Hx).
        exists (b :: p'), q'. simpl. rewrite Ea. auto.
    + intros E. destruct (IH p E) as (p' & q' & -> & <- & Hx).
      exists (a :: p'), q'. simpl. rewrite Ea. auto.
Qed.

(** A kind that stands in [firsts ks] after the kinds [p] occurs in [ks]
    for the first time after kinds of [p] only. *)
Lemma firsts_split (ks p q : list GestureType) (k : GestureType) :
  firsts ks = p ++ k :: q ->
  exists kpre kpost,
    ks = kpre ++ k :: kpost /\ ~ In k kpre /\
    (forall k', In k' kpre -> In k' p).
Proof.
  revert p q. induction ks as [|k1 ks IH]; intros p q; simpl.
  - destruct p; discriminate.
  - destruct p as [|k2 p]; simpl; intros [= -> E].
    + exists [], ks. simpl. repeat split; tauto.
    + apply filter_split in E. destruct E as (p' & q' & E & <- & Hk).
      destruct (IH p' q' E) as (kpre & kpost & -> & Hn & Hsub).
      apply negb_true_iff, GestureType_eqb_neq in Hk.
      exists (k2 :: kpre), kpost. simpl. repeat split.
      * intros [->|Hin]; tauto.
      * intros k' [<-|Hin]; [tauto|].
        destruct (GestureType_eqb k2 k') eqn:E'.
        -- apply (proj1 (GestureType_eqb_eq _ _)) in E'. tauto.
        -- right. apply filter_In. split; [auto|]. rewrite E'. reflexivity.
Qed.

(** What [Object.entries(gestureCount).sort(...)[0]] is: a kind with the
    highest count, and among those the one that occurs first. *)
Lemma most_frequent_kind (ks : list GestureType) (k : GestureType) (c : nat) :
  hd_error (sort by_count_descending (tally_kinds ks)) = Some (k, c) ->
  c = count_kind k ks /\
  (forall k', count_kind k' ks <= c) /\
  exists kpre kpost,
    ks = kpre ++ k :: kpost /\ ~ In k kpre /\
    (forall k', In k' kpre -> count_kind k' ks < c).
Proof.
  rewrite sort_head, tally_kinds_entries. intros Hmax.
  apply first_max_spec in Hmax. destruct Hmax as (pre & post & E & Hpre & Hpost).
  unfold entries in E. apply map_eq_app in E.
  destruct E as (p & q' & EF & <- & E).
  apply map_eq_cons in E. destruct E as (k0 & q & -> & [= -> <-] & <-).
  split; [reflexivity|]. split.
  - intros k'.
    assert (Hdec : In k' ks \/ ~ In k' ks).
    { destruct (existsb (fun k0 => GestureType_eqb k0 k') ks) eqn:Ex.
      - left. apply In_existsb. assumption.
      - right. intros Hin. apply In_existsb in Hin. congruence. }
    destruct Hdec as [Hin|Hn].
    + apply (proj2 (firsts_In _ _)) in Hin. rewrite EF in Hin.
      apply in_app_or in Hin. destruct Hin as [Hin|[->|Hin]].
      * specialize (Hpre (k', count_kind k' ks)
                         (in_map (fun k => (k, count_kind k ks)) _ _ Hin)).
        simpl in Hpre. lia.
      * lia.
      * exact (Hpost (k', count_kind k' ks)
                     (in_map (fun k => (k, count_kind k ks)) _ _ Hin)).
    + rewrite (count_kind_absent _ _ Hn). lia.
  - destruct (@firsts_split _ _ _ _ EF) as (kpre & kpost & -> & Hn & Hsub).
    exists kpre, kpost. repeat split; [assumption|].
    intros k' Hin.
    exact (Hpre (k', count_kind k' (kpre ++ k :: kpost))
                (in_map (fun k0 => (k0, count_kind k0 (kpre ++ k :: kpost)))
                        _ _ (Hsub _ Hin))).
Qed.

Lemma most_frequent_exists (ks : list GestureType) :
  ks <> [] ->
  exists k c, hd_error (sort by_count_descending (tally_kinds ks)) = Some (k, c).
Proof.
  intros Hne. rewrite sort_head.
  destruct (first_max (tally_kinds ks)) as [[k c]|] eqn:E; [eauto|].
  apply first_max_none in E. rewrite tally_kinds_entries in E.
  apply map_eq_nil in E.
  destruct ks as [|k ks]; [congruence|]. simpl in E. discriminate.
Qed.

(** ** The temporal stabilizer *)

Lemma index_last (A : Type) (l : list A) (x : A) :
  index (l ++ [x]) (length (l ++ [x]) - 1) = Some x.
Proof.
  unfold index. rewrite length_app. simpl.
  replace (length l + 1 - 1) with (length l) by lia.
  rewrite nth_error_app2 by lia. rewrite Nat.sub_diag. reflexivity.
Qed.

Section StabilizerFacts.
Context {num : Type} `{JsNumber num}.
Local Open Scope js_scope.

Lemma tally_of_kinds (history : list (GestureResult num)) :
  tally history = tally_kinds (map (@gtype num) history).
Proof.
  unfold tally, tally_kinds. generalize (@nil (GestureType * nat)).
  induction history as [|g history IH]; intros t; simpl; [reflexivity|].
  apply IH.
Qed.

Lemma occurrences_count (k : GestureType) (w : list (GestureResult num)) :
  occurrences k w = count_kind k (map (@gtype num) w).
Proof.
  unfold occurrences, count_kind.
  induction w as [|g w IH]; simpl; [reflexivity|].
  destruct (GestureType_eqb (gtype g) k); simpl; rewrite IH; reflexivity.
Qed.

Lemma pushed_last (history : list (GestureResult num)) (g : GestureResult num) :
  exists l, pushed history g = l ++ [g].
Proof.
  unfold pushed, push, shift.
  destruct (Nat.ltb_spec historySize (length (history ++ [g]))) as [Hlt|_].
  - destruct history as [|g0 history]; simpl in *.
    + unfold historySize in Hlt. lia.
    + exists history. reflexivity.
  - exists history. reflexivity.
Qed.

(** While the history holds at most [historySize] results, the history
    after a call is the window of the last [historySize] results. *)
Lemma pushed_window (history : list (GestureResult num)) (g : GestureResult num) :
  length history <= historySize ->
  pushed history g = window_after history g /\
  length (pushed history g) <= historySize.
Proof.
  unfold pushed, window_after, push, shift, historySize. intros Hlen.
  rewrite length_app. simpl.
  destruct (Nat.ltb_spec 5 (length history + 1)%nat) as [Hlt|Hge].
  - replace (length history + 1 - 5)%nat with 1%nat by lia.
    destruct history as [|g0 history]; simpl in *; [lia|].
    split; [reflexivity|]. rewrite length_app. simpl. lia.
  - replace (length history + 1 - 5)%nat with 0%nat by lia.
    split; [reflexivity|]. rewrite length_app. simpl. lia.
Qed.

(** One call of [addGesture], step by step: the history becomes
    [pushed], the first entry of the sorted tally is tested against the
    threshold, and the position is that of the argument. *)
Lemma addGesture_select (s : GestureStabilizer num) (g : GestureResult num) :
  let w := pushed (gestureHistory s) g in
  exists k c,
    hd_error (sort by_count_descending (tally w)) = Some (k, c) /\
    addGesture g s
    = Some (if of_nat c >=? Math_ceil (of_nat historySize * confidenceThreshold)
            then {| gtype := k; position := position g;
                    confidence := of_nat c / of_nat historySize |}
            else {| gtype := none; position := position g;
                    confidence := int 0 |},
            {| gestureHistory := w |}).
Proof.
  intros w.
  destruct (pushed_last (gestureHistory s) g) as (l & Hl).
  destruct (most_frequent_exists (ks := map (@gtype num) w)) as (k & c & Hkc).
  { subst w. rewrite Hl, map_app. simpl. intros E.
    apply app_eq_nil in E. destruct E; discriminate. }
  rewrite <- tally_of_kinds in Hkc.
  exists k, c. split; [assumption|].
  unfold addGesture, bind, set_gestureHistory, update, read, ret, deref. simpl.
  subst w. unfold pushed in *.
  destruct (historySize <? length (push (gestureHistory s) g))%nat; simpl;
    rewrite Hkc;
    (destruct (of_nat c >=? Math_ceil (of_nat historySize * confidenceThreshold));
     [|reflexivity]);
    rewrite Hl, index_last; reflexivity.
Qed.

End StabilizerFacts.

Lemma count_kind_le_length (k : GestureType) (ks : list GestureType) :
  count_kind k ks <= length ks.
Proof. unfold count_kind. apply filter_length_le. Qed.

(** Two different kinds share the entries of a list. *)
Lemma count_kind_disjoint (k k' : GestureType) (ks : list GestureType) :
  k <> k' -> count_kind k ks + count_kind k' ks <= length ks.
Proof.
  intros Hne. unfold count_kind.
  induction ks as [|k0 ks IH]; simpl; [lia|].
  destruct (GestureType_eqb k0 k) eqn:E, (GestureType_eqb k0 k') eqn:E'; simpl; try lia.
  apply (proj1 (GestureType_eqb_eq _ _)) in E.
  apply (proj1 (GestureType_eqb_eq _ _)) in E'. congruence.
Qed.

Lemma count_kind_NoDup (k : GestureType) (ks : list GestureType) :
  NoDup ks -> count_kind k ks <= 1.
Proof.
  unfold count_kind. induction 1 as [|k0 ks Hn Hnd IH]; simpl; [lia|].
  destruct (GestureType_eqb k0 k) eqn:E; simpl; [|assumption].
  apply (proj1 (GestureType_eqb_eq _ _)) in E. subst.
  fold (count_kind k ks). rewrite (count_kind_absent _ _ Hn). lia.
Qed.

Section StabilizerRule.
Context {num : Type} `{JsNumber num}.
Local Open Scope js_scope.

(** One call of [addGesture] on a history within its capacity: the kind
    [k] that is tested against the threshold has the highest count in
    the window, and whatever stands in the window before the first [k]
    has a strictly lower count. *)
Lemma addGesture_rule (s : GestureStabilizer num) (g : GestureResult num) :
  length (gestureHistory s) <= historySize ->
  let w := window_after (gestureHistory s) g in
  exists k wpre g0 wpost,
    w = wpre ++ g0 :: wpost /\ gtype g0 = k /\
    (forall k', occurrences k' w <= occurrences k w) /\
    (forall g', In g' wpre -> occurrences (gtype g') w < occurrences k w) /\
    addGesture g s
    = Some (if of_nat (occurrences k w)
               >=? Math_ceil (of_nat historySize * confidenceThreshold)
            then {| gtype := k; position := position g;
                    confidence := of_nat (occurrences k w) / of_nat historySize |}
            else {| gtype := none; position := position g;
                    confidence := int 0 |},
            {| gestureHistory := w |}).
Proof.
  intros Hlen w.
  destruct (addGesture_select s g) as (k & c & Hsel & Hrun).
  destruct (pushed_window _ g Hlen) as [Ew _].
  rewrite Ew in Hsel, Hrun. fold w in Hsel, Hrun.
  rewrite tally_of_kinds in Hsel.
  apply most_frequent_kind in Hsel.
  destruct Hsel as (Hc & Hmax & kpre & kpost & Esplit & _ & Hpre).
  apply map_eq_app in Esplit. destruct Esplit as (wpre & w2 & Ew2 & <- & E2).
  apply map_eq_cons in E2. destruct E2 as (g0 & wpost & -> & Hg0 & <-).
  rewrite <- occurrences_count in Hc. subst c.
  exists k, wpre, g0, wpost. repeat split; try assumption.
  - intros k'. rewrite (occurrences_count k' w). apply Hmax.
  - intros g' Hin. rewrite (occurrences_count (gtype g') w).
    apply Hpre. apply in_map. assumption.
Qed.

Lemma occurrences_le_length (k : GestureType) (w : list (GestureResult num)) :
  occurrences k w <= length w.
Proof. unfold occurrences. apply filter_length_le. Qed.

Lemma occurrences_disjoint (k k' : GestureType) (w : list (GestureResult num)) :
  k <> k' -> (occurrences k w + occurrences k' w <= length w)%nat.
Proof.
  intros Hne. rewrite !occurrences_count, <- (length_map (@gtype num) w).
  apply count_kind_disjoint. assumption.
Qed.

Lemma window_after_length (history : list (GestureResult num))
    (g : GestureResult num) :
  length history <= historySize ->
  length (window_after history g) <= historySize.
Proof.
  intros Hlen. destruct (pushed_window _ g Hlen) as [<- Hle]. exact Hle.
Qed.

(** Feeding five results to a new stabilizer: the last call runs on the
    history of the first four. *)
Lemma feed_five (g1 g2 g3 g4 g5 : GestureResult num) :
  feed [g1; g2; g3; g4; g5] None new_GestureStabilizer
  = match addGesture g5 {| gestureHistory := [g1; g2; g3; g4] |} with
    | Some (r, s) => Some (Some r, s)
    | None => None
    end.
Proof.
  unfold feed, bind, new_GestureStabilizer, ret.
  destruct (addGesture_select {| gestureHistory := [] |} g1) as (? & ? & _ & E1).
  destruct (addGesture_select {| gestureHistory := [g1] |} g2) as (? & ? & _ & E2).
  destruct (addGesture_select {| gestureHistory := [g1; g2] |} g3)
    as (? & ? & _ & E3).
  destruct (addGesture_select {| gestureHistory := [g1; g2; g3] |} g4)
    as (? & ? & _ & E4).
  unfold pushed, push in E1, E2, E3, E4. simpl in E1, E2, E3, E4.
  rewrite E1. cbv beta iota. rewrite E2. cbv beta iota.
  rewrite E3. cbv beta iota. rewrite E4. reflexivity.
Qed.

End StabilizerRule.

(** At binary64, for the counts that a window of five can hold, the test
    [count >= Math.ceil(5 * 0.6)] is [count >= 3]. *)
Lemma Float64_meets_threshold (c : nat) :
  c <= historySize ->
  ((of_nat c : float) >=? Math_ceil (of_nat historySize * confidenceThreshold))%js
  = (3 <=? c)%nat.
Proof.
  unfold historySize. intros Hc.
  do 6 (destruct c as [|c]; [vm_compute; reflexivity|]). lia.
Qed.

(** One call at binary64, with the threshold test read as [3 <= count]. *)
Lemma Float64_addGesture (s : GestureStabilizer float) (g : GestureResult float) :
  length (gestureHistory s) <= historySize ->
  let w := window_after (gestureHistory s) g in
  exists k wpre g0 wpost,
    w = wpre ++ g0 :: wpost /\ gtype g0 = k /\
    (forall k', occurrences k' w <= occurrences k w) /\
    (forall g', In g' wpre -> occurrences (gtype g') w < occurrences k w) /\
    addGesture g s
    = Some (if (3 <=? occurrences k w)%nat
            then {| gtype := k; position := position g;
                    confidence := (of_nat (occurrences k w) / of_nat historySize)%js |}
            else {| gtype := none; position := position g;
                    confidence := int 0 |},
            {| gestureHistory := w |}).
Proof.
  intros Hlen w.
  destruct (addGesture_rule s g Hlen) as (k & wpre & g0 & wpost & E & Hk & Hmax & Hpre & Hrun).
  fold w in E, Hmax, Hpre, Hrun.
  exists k, wpre, g0, wpost. repeat split; try assumption.
  rewrite Hrun, Float64_meets_threshold; [reflexivity|].
  pose proof (occurrences_le_length k w).
  pose proof (window_after_length _ g Hlen). fold w in H0. lia.
Qed.

(** C2: the majority rule of [GestureStabilizer.addGesture].  After the
    push into the window of five, the most frequent kind is emitted with
    confidence count/5 when its count is at least 3, and [none] with
    confidence 0 otherwise, in both cases with the position of the raw
    result just fed.  Five results of one kind fed to a new stabilizer end
    in that kind with confidence 1; five results of five different kinds
    end in [none] with confidence 0. *)
Theorem addGesture_majority :
  (forall (s : GestureStabilizer float) (g : GestureResult float),
      length (gestureHistory s) <= historySize ->
      let w := window_after (gestureHistory s) g in
      length w <= historySize /\
      forall k,
        (forall k', occurrences k' w <= occurrences k w) ->
        addGesture g s
        = Some (if (3 <=? occurrences k w)%nat
                then {| gtype := k; position := position g;
                        confidence :=
                          (of_nat (occurrences k w) / of_nat historySize)%js |}
                else {| gtype := none; position := position g;
                        confidence := int 0 |},
                {| gestureHistory := w |})) /\
  (forall (k : GestureType) (g1 g2 g3 g4 g5 : GestureResult float),
      gtype g1 = k -> gtype g2 = k -> gtype g3 = k -> gtype g4 = k ->
      gtype g5 = k ->
      feed [g1; g2; g3; g4; g5] None new_GestureStabilizer
      = Some (Some {| gtype := k; position := position g5; confidence := int 1 |},
              {| gestureHistory := [g1; g2; g3; g4; g5] |})) /\
  (forall g1 g2 g3 g4 g5 : GestureResult float,
      NoDup (map (@gtype float) [g1; g2; g3; g4; g5]) ->
      feed [g1; g2; g3; g4; g5] None new_GestureStabilizer
      = Some (Some {| gtype := none; position := position g5; confidence := int 0 |},
              {| gestureHistory := [g1; g2; g3; g4; g5] |})).
Proof.
  split; [|split].
  - intros s g Hlen w. split; [apply window_after_length; assumption|].
    intros k Hk.
    destruct (Float64_addGesture s g Hlen)
      as (k0 & _ & _ & _ & _ & _ & Hmax & _ & Hrun).
    fold w in Hmax, Hrun. rewrite Hrun.
    assert (Ec : occurrences k0 w = occurrences k w).
    { apply Nat.le_antisymm; [apply Hk|apply Hmax]. }
    rewrite Ec.
    destruct (Nat.leb_spec 3 (occurrences k w)) as [H3|_]; [|reflexivity].
    assert (k0 = k) as ->; [|reflexivity].
    destruct (GestureType_eqb k0 k) eqn:E.
    + apply GestureType_eqb_eq. assumption.
    + apply (proj1 (GestureType_eqb_neq _ _)) in E.
      pose proof (occurrences_disjoint w E).
      pose proof (window_after_length _ g Hlen). fold w in H0.
      unfold historySize in *. lia.
  - intros k g1 g2 g3 g4 g5 E1 E2 E3 E4 E5. rewrite feed_five.
    destruct (Float64_addGesture {| gestureHistory := [g1; g2; g3; g4] |} g5)
      as (k0 & _ & _ & _ & _ & _ & Hmax & _ & Hrun).
    { simpl. unfold historySize. lia. }
    change (window_after (gestureHistory {| gestureHistory := [g1; g2; g3; g4] |}) g5)
      with [g1; g2; g3; g4; g5] in Hmax, Hrun.
    assert (E5k : occurrences k [g1; g2; g3; g4; g5] = 5).
    { unfold occurrences. simpl. rewrite E1, E2, E3, E4, E5.
      rewrite GestureType_eqb_refl. reflexivity. }
    assert (k0 = k) as ->.
    { destruct (GestureType_eqb k0 k) eqn:E.
      - apply GestureType_eqb_eq. assumption.
      - apply (proj1 (GestureType_eqb_neq _ _)) in E.
        pose proof (occurrences_disjoint [g1; g2; g3; g4; g5] E).
        specialize (Hmax k). simpl in H. lia. }
    rewrite Hrun, E5k. reflexivity.
  - intros g1 g2 g3 g4 g5 Hnd. rewrite feed_five.
    destruct (Float64_addGesture {| gestureHistory := [g1; g2; g3; g4] |} g5)
      as (k0 & _ & _ & _ & _ & _ & _ & _ & Hrun).
    { simpl. unfold historySize. lia. }
    change (window_after (gestureHistory {| gestureHistory := [g1; g2; g3; g4] |}) g5)
      with [g1; g2; g3; g4; g5] in Hrun.
    rewrite Hrun.
    pose proof (count_kind_NoDup k0 Hnd) as Hle.
    rewrite <- occurrences_count in Hle.
    destruct (Nat.leb_spec 3 (occurrences k0 [g1; g2; g3; g4; g5])); [lia|].
    reflexivity.
Qed.

Lemma addGesture_majority_witness :
  addGesture (Samples.raw draw 10 20)
             (Samples.stabilizer_of [draw; erase; menu; draw])
  = Some ({| gtype := draw; position := position (Samples.raw draw 10 20);
             confidence := dec 6 1 |},
          {| gestureHistory :=
               push (gestureHistory (Samples.stabilizer_of [draw; erase; menu; draw]))
                    (Samples.raw draw 10 20) |})
  /\ feed (map (fun k => Samples.raw k 10 20) [draw; erase; menu; line; circle])
          None new_GestureStabilizer
     = Some (Some {| gtype := none; position := position (Samples.raw circle 10 20);
                     confidence := int 0 |},
             {| gestureHistory :=
                  map (fun k => Samples.raw k 10 20)
                      [draw; erase; menu; line; circle] |}).
Proof.
  split.
  - refine (eq_trans
      (proj2 (proj1 addGesture_majority
                    (Samples.stabilizer_of [draw; erase; menu; draw])
                    (Samples.raw draw 10 20) _) draw _) _).
    + vm_compute. lia.
    + intros k'. destruct k'; vm_compute; lia.
    + vm_compute. reflexivity.
  - apply (proj2 (proj2 addGesture_majority)).
    vm_compute. repeat constructor; simpl; intuition discriminate.
Defined.



(** Two kinds with two occurrences each: the one seen first heads the
    sorted tally (and nothing is emitted, the count being below 3). *)
Lemma tie_of_two :
  let w := gestureHistory (Samples.stabilizer_of [erase; draw; draw; erase]) in
  hd_error (sort by_count_descending (tally w)) = Some (erase, 2) /\
  option_map fst (addGesture (Samples.raw menu 10 20)
                             (Samples.stabilizer_of [erase; draw; draw; erase]))
  = Some {| gtype := none; position := position (Samples.raw menu 10 20);
            confidence := int 0 |}.
Proof. vm_compute. split; reflexivity. Qed.

(** ** The trajectory buffer *)

Section BufferFacts.
Context {num : Type} `{JsNumber num}.

(** One call of [addPoint]: the stamped point is appended, and the first
    point leaves when the length has passed [maxTrackPoints]. *)
Lemma addPoint_step (p : Position num) (s : ShapeRecognizer num) :
  let a := push (trackPoints s)
                {| tx := px p; ty := py p; timestamp := wallClock s 0 |} in
  addPoint p s
  = Some (tt, {| trackPoints := if maxTrackPoints <? length a then shift a else a;
                 wallClock := fun k => wallClock s (S k) |}).
Proof.
  unfold addPoint, bind, Date_now, set_trackPoints, update, read, ret. simpl.
  destruct (maxTrackPoints <? _); reflexivity.
Qed.

Lemma skipn_shift (A : Type) (a : list A) (n : nat) :
  skipn n (shift a) = skipn (S n) a.
Proof. destruct a; simpl; [destruct n|]; reflexivity. Qed.

(** Any number of calls on a buffer within its capacity: what remains
    are the last [maxTrackPoints] points. *)
Lemma addPoints_from (ps : list (Position num)) (s : ShapeRecognizer num) :
  length (trackPoints s) <= maxTrackPoints ->
  exists clock',
    addPoints ps s
    = Some (tt, {| trackPoints :=
                     let a := trackPoints s ++ stamped (wallClock s) ps in
                     skipn (length a - maxTrackPoints) a;
                   wallClock := clock' |}).
Proof.
  revert s. induction ps as [|p ps IH]; intros s Hlen.
  - exists (wallClock s). simpl. rewrite app_nil_r.
    replace (length (trackPoints s) - maxTrackPoints) with 0 by lia.
    destruct s; reflexivity.
  - simpl addPoints. unfold bind. rewrite addPoint_step. cbv zeta.
    set (x := {| tx := px p; ty := py p; timestamp := wallClock s 0 |}).
    set (a := push (trackPoints s) x).
    set (s1 := {| trackPoints := if maxTrackPoints <? length a then shift a else a;
                  wallClock := fun k => wallClock s (S k) |}).
    assert (Ha : length a = S (length (trackPoints s))).
    { subst a. unfold push. rewrite length_app. simpl. lia. }
    assert (H1 : trackPoints s1 = skipn (length a - maxTrackPoints) a
                 /\ length (trackPoints s1) <= maxTrackPoints).
    { subst s1. simpl. unfold maxTrackPoints in *.
      destruct (Nat.ltb_spec 50 (length a)) as [Hlt|Hge].
      - replace (length a - 50) with 1 by lia.
        destruct a; simpl in *; [lia|]. split; [reflexivity|lia].
      - replace (length a - 50) with 0 by lia. split; [reflexivity|lia]. }
    destruct H1 as [E1 Hlen1].
    destruct (IH s1 Hlen1) as (clock' & ->).
    exists clock'. do 3 f_equal. cbv zeta.
    change (wallClock s1) with (fun k => wallClock s (S k)).
    change (stamped (wallClock s) (p :: ps))
      with (x :: stamped (fun k => wallClock s (S k)) ps).
    set (rest := stamped (fun k => wallClock s (S k)) ps).
    rewrite E1.
    replace (trackPoints s ++ x :: rest) with (a ++ rest)
      by (subst a; unfold push; rewrite <- app_assoc; reflexivity).
    rewrite !length_app.
    unfold maxTrackPoints in *.
    destruct (Nat.le_gt_cases (length a) 50) as [Hle|Hgt].
    + replace (length a - 50) with 0 by lia. simpl. reflexivity.
    + replace (length a - 50) with 1 by lia.
      destruct a as [|y a]; simpl in *; [lia|].
      replace (length a + length rest - 49) with (S (length a + length rest - 50))
        by lia.
      reflexivity.
Qed.

End BufferFacts.

Section BufferTheorems.
Context {num : Type} `{JsNumber num}.

Lemma stamped_length (clock : nat -> num) (ps : list (Position num)) :
  length (stamped clock ps) = length ps.
Proof.
  revert clock. induction ps as [|p ps IH]; intros clock; simpl; [|rewrite IH];
    reflexivity.
Qed.

(** C7: [addPoint] appends the new point and, when the length passes 50,
    removes the oldest one, so a buffer within its capacity stays within
    it; after any number of calls on a new recognizer [getTrackPoints]
    returns the last 50 points added (all of them when fewer), in the
    order in which they were added; after 60 calls these are exactly 50
    points, the first 10 being gone. *)
Theorem trackPoints_bounded :
  (forall (p : Position num) (s : ShapeRecognizer num),
      let a := trackPoints s
               ++ [{| tx := px p; ty := py p; timestamp := wallClock s 0 |}] in
      exists s',
        addPoint p s = Some (tt, s') /\
        trackPoints s' = (if maxTrackPoints <? length a then tl a else a) /\
        (length (trackPoints s) <= maxTrackPoints ->
         length (trackPoints s') <= maxTrackPoints)) /\
  (forall (clock : nat -> num) (ps : list (Position num)),
      exists s',
        bind (addPoints ps) (fun _ => getTrackPoints) (new_ShapeRecognizer clock)
        = Some (skipn (length ps - maxTrackPoints) (stamped clock ps), s') /\
        length (skipn (length ps - maxTrackPoints) (stamped clock ps))
        = Nat.min (length ps) maxTrackPoints) /\
  (forall (clock : nat -> num) (ps : list (Position num)),
      length ps = 60 ->
      exists s',
        bind (addPoints ps) (fun _ => getTrackPoints) (new_ShapeRecognizer clock)
        = Some (skipn 10 (stamped clock ps), s') /\
        length (skipn 10 (stamped clock ps)) = 50).
Proof.
  assert (Hall : forall (clock : nat -> num) (ps : list (Position num)),
    exists s',
      bind (addPoints ps) (fun _ => getTrackPoints) (new_ShapeRecognizer clock)
      = Some (skipn (length ps - maxTrackPoints) (stamped clock ps), s') /\
      length (skipn (length ps - maxTrackPoints) (stamped clock ps))
      = Nat.min (length ps) maxTrackPoints).
  { intros clock ps.
    destruct (addPoints_from ps (new_ShapeRecognizer clock)) as (clock' & E).
    { simpl. unfold maxTrackPoints. lia. }
    simpl in E. rewrite stamped_length in E.
    unfold bind, getTrackPoints, read. rewrite E. simpl.
    eexists. split; [reflexivity|].
    rewrite length_skipn, stamped_length. lia. }
  split; [|split].
  - intros p s a. rewrite addPoint_step. cbv zeta. unfold push, shift. fold a.
    eexists. split; [reflexivity|]. split; [reflexivity|].
    simpl. subst a. rewrite length_app. simpl. unfold maxTrackPoints.
    intros Hlen.
    destruct (Nat.ltb_spec 50 (length (trackPoints s) + 1)) as [Hlt|Hge].
    + destruct (trackPoints s) as [|y a]; simpl in *; [lia|].
      rewrite length_app. simpl. lia.
    + rewrite length_app. simpl. lia.
  - exact Hall.
  - intros clock ps Hlen.
    destruct (Hall clock ps) as (s' & E & El).
    rewrite Hlen in E, El. exists s'. split; [exact E|exact El].
Qed.

End BufferTheorems.

Lemma trackPoints_bounded_witness :
  let ps := map (fun i => {| px := of_nat i; py := of_nat i |}) (seq 0 60) in
  exists s' : ShapeRecognizer float,
    bind (addPoints ps) (fun _ => getTrackPoints)
         (new_ShapeRecognizer Samples.clock)
    = Some (skipn 10 (stamped Samples.clock ps), s') /\
    length (skipn 10 (stamped Samples.clock ps)) = 50.
Proof.
  intros ps.
  apply (proj2 (proj2 trackPoints_bounded) Samples.clock ps).
  vm_compute. reflexivity.
Defined.

(** ** The shape fitter *)

Section FitterFacts.
Context {num : Type} `{JsNumber num}.
Local Open Scope js_scope.

(** A loop that reads [a[i]] for the indices of a segment of [a] folds
    over that segment and leaves the state alone. *)
Lemma for_each_index (St A B : Type) (a pre mid post : list B)
    (f : A -> B -> A) (acc : A) (s : St) :
  a = pre ++ mid ++ post ->
  for_each (seq (length pre) (length mid)) acc
           (fun i acc => bind (deref (index a i)) (fun x => ret (f acc x))) s
  = Some (fold_left f mid acc, s).
Proof.
  intros ->. revert pre acc. induction mid as [|x mid IH]; intros pre acc.
  - reflexivity.
  - simpl. unfold bind at 1 2, deref, index.
    rewrite nth_error_app2 by lia. rewrite Nat.sub_diag. simpl.
    unfold ret at 1.
    specialize (IH (pre ++ [x]) (f acc x)).
    rewrite length_app in IH. simpl in IH.
    rewrite Nat.add_1_r, <- app_assoc in IH. simpl in IH.
    exact IH.
Qed.

(** The line candidate of a buffer of two points or more. *)
Lemma detectLine_fit (s : ShapeRecognizer num) (start end_ : TrackPoint num)
    (mid : list (TrackPoint num)) :
  trackPoints s = start :: mid ++ [end_] ->
  let lineLength :=
    Math_sqrt (Math_pow2 (tx end_ - tx start) + Math_pow2 (ty end_ - ty start)) in
  let totalDeviation :=
    fold_left (fun total point => total + pointToLineDistance point start end_)
              mid (int 0) in
  let avgDeviation := totalDeviation / int (Z.of_nat (length (trackPoints s)) - 2) in
  let confidence := Math_max (int 0) (int 1 - avgDeviation * int 10) in
  detectLine s
  = Some ({| shape := shape_line;
             fit_confidence := if lineLength >? dec 1 1 then confidence else int 0;
             points := Some (LinePoints start end_) |}, s).
Proof.
  intros Ea. cbv zeta.
  unfold detectLine. unfold bind at 1, read. rewrite Ea.
  unfold bind at 1, deref at 1, index at 1. simpl nth_error.
  assert (Elast : index (start :: mid ++ [end_])
                        (length (start :: mid ++ [end_]) - 1) = Some end_).
  { exact (index_last (start :: mid) end_). }
  unfold bind at 1, deref at 1. rewrite Elast.
  assert (Eseq : seq 1 (length (start :: mid ++ [end_]) - 2)
                 = seq (length [start]) (length mid)).
  { simpl. rewrite length_app. simpl. f_equal. lia. }
  rewrite Eseq. unfold bind at 1.
  rewrite (for_each_index (a := start :: mid ++ [end_]) [start] mid [end_]
             (fun total point => total + pointToLineDistance point start end_)
             (int 0) s eq_refl).
  reflexivity.
Qed.

Lemma at_least_two (A : Type) (a : list A) :
  2 <= length a -> exists x mid y, a = x :: mid ++ [y].
Proof.
  intros Hlen. destruct a as [|x a]; [simpl in Hlen; lia|].
  destruct (exists_last (l := a)) as (mid & y & ->).
  { intros ->. simpl in Hlen. lia. }
  eauto.
Qed.

Lemma detectCircle_returns (s : ShapeRecognizer num) :
  exists c, detectCircle s = Some (c, after_reading s) /\ shape c = shape_circle.
Proof.
  unfold detectCircle, bind, read, Date_now, ret.
  destruct (fold_left _ (trackPoints s) (int 0, int 0)) as [centerX centerY].
  eexists. split; reflexivity.
Qed.

Lemma detectRectangle_returns (s : ShapeRecognizer num) :
  exists r,
    detectRectangle s = Some (r, after_reading (after_reading s)) /\
    shape r = shape_rectangle.
Proof.
  unfold detectRectangle, bind, read, Date_now, ret.
  destruct (fold_left _ (trackPoints s) (Infinity, Infinity, neg Infinity, neg Infinity))
    as [[[minX minY] maxX] maxY].
  eexists. split; reflexivity.
Qed.

End FitterFacts.

Section FitterTheorems.
Context {num : Type} `{JsNumber num}.
Local Open Scope js_scope.

(** C3: with fewer than 10 buffered points [recognizeShape] returns
    [{shape: none, confidence: 0}], without a look at the points. *)
Theorem recognizeShape_too_few (s : ShapeRecognizer num) :
  length (trackPoints s) < minPointsForRecognition ->
  recognizeShape s = Some (noShape, s).
Proof.
  intros Hlen. unfold recognizeShape, bind, read.
  apply Nat.ltb_lt in Hlen. rewrite Hlen. reflexivity.
Qed.

(** With 10 points or more, the three candidates and what
    [recognizeShape] makes of them. *)
Lemma recognizeShape_candidates (s : ShapeRecognizer num) :
  minPointsForRecognition <= length (trackPoints s) ->
  exists lineResult circleResult rectangleResult,
    detectLine s = Some (lineResult, s) /\
    detectCircle s = Some (circleResult, after_reading s) /\
    detectRectangle (after_reading s)
    = Some (rectangleResult, after_reading (after_reading (after_reading s))) /\
    shape lineResult = shape_line /\
    shape circleResult = shape_circle /\
    shape rectangleResult = shape_rectangle /\
    recognizeShape s
    = if fit_confidence lineResult >? dec 7 1
      then Some (lineResult, s)
      else if fit_confidence circleResult >? dec 6 1
      then Some (circleResult, after_reading s)
      else if fit_confidence rectangleResult >? dec 6 1
      then Some (rectangleResult, after_reading (after_reading (after_reading s)))
      else Some (noShape, after_reading (after_reading (after_reading s))).
Proof.
  intros Hlen.
  destruct (at_least_two (trackPoints s)) as (start & mid & end_ & Ea).
  { unfold minPointsForRecognition in Hlen. lia. }
  pose proof (@detectLine_fit _ _ s start end_ mid Ea) as Eline. cbv zeta in Eline.
  destruct (detectCircle_returns s) as (c & Ecircle & Hc).
  destruct (detectRectangle_returns (after_reading s)) as (r & Erect & Hr).
  eexists _, c, r. split; [exact Eline|].
  split; [exact Ecircle|]. split; [exact Erect|].
  split; [reflexivity|]. split; [exact Hc|]. split; [exact Hr|].
  unfold recognizeShape. unfold bind at 1, read.
  apply Nat.ltb_ge in Hlen. rewrite Hlen.
  unfold bind at 1. rewrite Eline. cbv beta iota.
  match goal with |- context [if ?b then _ else _] => destruct b end;
    [reflexivity|].
  unfold bind at 1. rewrite Ecircle. cbv beta iota.
  destruct (fit_confidence c >? dec 6 1); [reflexivity|].
  unfold bind at 1. rewrite Erect. cbv beta iota.
  destruct (fit_confidence r >? dec 6 1); reflexivity.
Qed.

(** C4: with at least 10 buffered points the candidates are tried in the
    order line, circle, rectangle; the line fit is returned when its
    confidence exceeds 0.7, whatever the other two score; otherwise the
    circle fit when its confidence exceeds 0.6; otherwise the rectangle
    fit when its confidence exceeds 0.6; otherwise
    [{shape: none, confidence: 0}]. *)
Theorem recognizeShape_order (s : ShapeRecognizer num) :
  minPointsForRecognition <= length (trackPoints s) ->
  exists lineResult circleResult rectangleResult s1 s2,
    detectLine s = Some (lineResult, s) /\
    detectCircle s = Some (circleResult, s1) /\
    detectRectangle s1 = Some (rectangleResult, s2) /\
    shape lineResult = shape_line /\
    shape circleResult = shape_circle /\
    shape rectangleResult = shape_rectangle /\
    recognizeShape s
    = if fit_confidence lineResult >? dec 7 1
      then Some (lineResult, s)
      else if fit_confidence circleResult >? dec 6 1
      then Some (circleResult, s1)
      else if fit_confidence rectangleResult >? dec 6 1
      then Some (rectangleResult, s2)
      else Some (noShape, s2).
Proof.
  intros Hlen.
  destruct (recognizeShape_candidates s Hlen)
    as (l & c & r & El & Ec & Er & Hl & Hc & Hr & E).
  exists l, c, r, (after_reading s), (after_reading (after_reading (after_reading s))).
  repeat split; assumption.
Qed.

(** A loop whose body leaves the state alone leaves it alone. *)
Lemma for_each_frame (St A I : Type) (P : St -> St -> Prop)
    (body : I -> A -> Method St A) :
  (forall s, P s s) ->
  (forall s1 s2 s3, P s1 s2 -> P s2 s3 -> P s1 s3) ->
  (forall i acc s r s', body i acc s = Some (r, s') -> P s s') ->
  forall indices acc s r s',
    for_each indices acc body s = Some (r, s') -> P s s'.
Proof.
  intros Hrefl Htrans Hbody indices.
  induction indices as [|i indices IH]; intros acc s r s'; simpl.
  - unfold ret. intros [= _ <-]. apply Hrefl.
  - unfold bind. destruct (body i acc s) as [[acc' s1]|] eqn:E; [|discriminate].
    intros Hrest. eapply Htrans; [eapply Hbody; exact E|eapply IH; exact Hrest].
Qed.

Lemma detectLine_frame (s s' : ShapeRecognizer num) (r : ShapeResult num) :
  detectLine s = Some (r, s') -> s' = s.
Proof.
  unfold detectLine. unfold bind at 1, read.
  unfold bind at 1, deref at 1.
  destruct (index (trackPoints s) 0) as [start|]; [|discriminate].
  unfold bind at 1, deref at 1.
  destruct (index (trackPoints s) (length (trackPoints s) - 1)) as [end_|];
    [|discriminate].
  unfold bind at 1.
  match goal with
  | |- context [for_each ?ixs ?acc ?body s] =>
    destruct (for_each ixs acc body s) as [[total s1]|] eqn:Eloop; [|discriminate];
    apply (for_each_frame (fun s1 s2 => s2 = s1)) in Eloop
  end.
  - subst s1. unfold ret. intros [= _ <-]. reflexivity.
  - reflexivity.
  - intros; congruence.
  - intros i acc s0 r0 s0'. unfold bind, deref.
    destruct (index (trackPoints s) i); [|discriminate].
    unfold ret. intros [= _ <-]. reflexivity.
Qed.

(** C10: fitting reads the buffer and does not write it.  Every call of
    [recognizeShape] returns, and the buffered track points after it are
    those before it; so it is for each of the three detectors when they
    return, and [getTrackPoints] changes nothing at all. *)
Theorem recognizeShape_frame :
  (forall s : ShapeRecognizer num,
      exists r s', recognizeShape s = Some (r, s') /\
                   trackPoints s' = trackPoints s) /\
  (forall (s s' : ShapeRecognizer num) (r : ShapeResult num),
      detectLine s = Some (r, s') -> trackPoints s' = trackPoints s) /\
  (forall (s s' : ShapeRecognizer num) (r : ShapeResult num),
      detectCircle s = Some (r, s') -> trackPoints s' = trackPoints s) /\
  (forall (s s' : ShapeRecognizer num) (r : ShapeResult num),
      detectRectangle s = Some (r, s') -> trackPoints s' = trackPoints s) /\
  (forall s : ShapeRecognizer num, getTrackPoints s = Some (trackPoints s, s)).
Proof.
  repeat split.
  - intros s.
    destruct (Nat.lt_ge_cases (length (trackPoints s)) minPointsForRecognition)
      as [Hlt|Hge].
    + exists noShape, s. split; [|reflexivity].
      unfold recognizeShape, bind, read.
      apply Nat.ltb_lt in Hlt. rewrite Hlt. reflexivity.
    + destruct (recognizeShape_candidates s Hge)
        as (l & c & r & _ & _ & _ & _ & _ & _ & ->).
      destruct (fit_confidence l >? dec 7 1); [eexists _, _; split; reflexivity|].
      destruct (fit_confidence c >? dec 6 1); [eexists _, _; split; reflexivity|].
      destruct (fit_confidence r >? dec 6 1); eexists _, _; split; reflexivity.
  - intros s s' r E. apply detectLine_frame in E. subst. reflexivity.
  - intros s s' r E. destruct (detectCircle_returns s) as (c & Ec & _).
    rewrite Ec in E. injection E as _ <-. reflexivity.
  - intros s s' r E. destruct (detectRectangle_returns s) as (c & Ec & _).
    rewrite Ec in E. injection E as _ <-. reflexivity.
Qed.

End FitterTheorems.

Lemma recognizeShape_too_few_witness :
  recognizeShape (Samples.recognizer_with (Samples.on_line 5))
  = Some (noShape, Samples.recognizer_with (Samples.on_line 5)).
Proof.
  apply (recognizeShape_too_few (Samples.recognizer_with (Samples.on_line 5))).
  vm_compute. lia.
Defined.

Lemma recognizeShape_order_witness :
  let s := Samples.recognizer_with (Samples.on_line 10) in
  exists lineResult circleResult rectangleResult s1 s2,
    detectLine s = Some (lineResult, s) /\
    detectCircle s = Some (circleResult, s1) /\
    detectRectangle s1 = Some (rectangleResult, s2) /\
    shape lineResult = shape_line /\
    shape circleResult = shape_circle /\
    shape rectangleResult = shape_rectangle /\
    recognizeShape s
    = if (fit_confidence lineResult >? dec 7 1)%js
      then Some (lineResult, s)
      else if (fit_confidence circleResult >? dec 6 1)%js
      then Some (circleResult, s1)
      else if (fit_confidence rectangleResult >? dec 6 1)%js
      then Some (rectangleResult, s2)
      else Some (noShape, s2).
Proof.
  intros s. apply (recognizeShape_order s).
  vm_compute. lia.
Defined.

Lemma recognizeShape_frame_witness :
  exists r s',
    recognizeShape (Samples.recognizer_with (Samples.on_line 10)) = Some (r, s') /\
    trackPoints s' = trackPoints (Samples.recognizer_with (Samples.on_line 10)).
Proof.
  apply (proj1 recognizeShape_frame (Samples.recognizer_with (Samples.on_line 10))).
Defined.

(** ** The line fit in exact arithmetic *)

Module ExactFacts.
Import Exact.
Local Open Scope R_scope.

Lemma Rltb_true (x y : R) : x < y -> Rltb x y = true.
Proof. intros Hlt. unfold Rltb. destruct (Rlt_dec x y); [reflexivity|tauto]. Qed.

Lemma Rltb_false (x y : R) : y <= x -> Rltb x y = false.
Proof. intros Hle. unfold Rltb. destruct (Rlt_dec x y); [lra|reflexivity]. Qed.

Lemma Reqb_false (x y : R) : x <> y -> Reqb x y = false.
Proof. intros Hne. unfold Reqb. destruct (Req_dec_T x y); [tauto|reflexivity]. Qed.

Lemma int_exact (z : Z) : (int z : xreal) = Fin (IZR z).
Proof.
  unfold int. simpl. unfold xdecimal. f_equal.
  change (10 ^ Z.of_nat 0)%Z with 1%Z. field.
Qed.

Lemma dec_exact (m : Z) (e : nat) :
  (dec m e : xreal) = Fin (IZR m / IZR (10 ^ Z.of_nat e)).
Proof. reflexivity. Qed.

(** On real numbers the operations are those of the field. *)
Lemma xsub_fin (a b : R) : xsub (Fin a) (Fin b) = Fin (a - b).
Proof. reflexivity. Qed.

Lemma xadd_fin (a b : R) : xadd (Fin a) (Fin b) = Fin (a + b).
Proof. reflexivity. Qed.

Lemma xmul_fin (a b : R) : xmul (Fin a) (Fin b) = Fin (a * b).
Proof. reflexivity. Qed.

Lemma xdiv_fin (a b : R) : b <> 0 -> xdiv (Fin a) (Fin b) = Fin (a / b).
Proof. intros Hb. unfold xdiv. rewrite (Reqb_false Hb). reflexivity. Qed.

Lemma xsqrt_fin (a : R) : 0 <= a -> xsqrt (Fin a) = Fin (sqrt a).
Proof. intros Ha. unfold xsqrt. rewrite (Rltb_false Ha). reflexivity. Qed.

Lemma xlt_fin (a b : R) : xlt (Fin a) (Fin b) = Rltb a b.
Proof. reflexivity. Qed.

Lemma xeq_fin (a b : R) : xeq (Fin a) (Fin b) = Reqb a b.
Proof. reflexivity. Qed.

Lemma xmax_fin (a b : R) :
  xmax (Fin a) (Fin b) = if Rltb a b then Fin b else Fin a.
Proof. reflexivity. Qed.

Create Rewrite HintDb exact_ops.
#[local] Hint Rewrite int_exact xsub_fin xadd_fin xmul_fin xlt_fin xeq_fin
  : exact_ops.

Ltac exact_ops :=
  cbn [tx ty sub add mul div js_eq js_lt Math_sqrt Math_max exact];
  autorewrite with exact_ops.

(** A point of the segment is at distance 0 from it: the projection
    parameter is the [t] of the point, which needs no clamping. *)
Lemma pointToLineDistance_on_segment (sx sy ex ey t : R) (ts te tp : xreal) :
  0 <= t <= 1 ->
  0 < (ex - sx) * (ex - sx) + (ey - sy) * (ey - sy) ->
  pointToLineDistance
    {| tx := Fin (sx + t * (ex - sx)); ty := Fin (sy + t * (ey - sy));
       timestamp := tp |}
    {| tx := Fin sx; ty := Fin sy; timestamp := ts |}
    {| tx := Fin ex; ty := Fin ey; timestamp := te |}
  = Fin 0.
Proof.
  intros Ht Hlen.
  unfold pointToLineDistance. exact_ops.
  rewrite Reqb_false by lra.
  rewrite xdiv_fin by lra.
  replace (((sx + t * (ex - sx) - sx) * (ex - sx)
            + (sy + t * (ey - sy) - sy) * (ey - sy))
           / ((ex - sx) * (ex - sx) + (ey - sy) * (ey - sy)))
    with t by (field; lra).
  exact_ops.
  rewrite (Rltb_false (x := t) (y := 0)) by lra.
  rewrite (Rltb_false (x := 1) (y := t)) by lra.
  exact_ops.
  rewrite xsqrt_fin by nra.
  f_equal.
  replace ((sx + t * (ex - sx) - (sx + t * (ex - sx)))
           * (sx + t * (ex - sx) - (sx + t * (ex - sx)))
           + (sy + t * (ey - sy) - (sy + t * (ey - sy)))
             * (sy + t * (ey - sy) - (sy + t * (ey - sy))))
    with 0 by ring.
  apply sqrt_0.
Qed.

Lemma total_deviation_zero (f : TrackPoint xreal -> xreal)
    (mid : list (TrackPoint xreal)) :
  (forall p, In p mid -> f p = Fin 0) ->
  fold_left (fun total p => (total + f p)%js) mid (Fin 0) = Fin 0.
Proof.
  induction mid as [|p mid IH]; intros Hf; simpl; [reflexivity|].
  rewrite (Hf p) by (left; reflexivity).
  change (Fin 0 + Fin 0)%js with (Fin (0 + 0)). rewrite Rplus_0_l.
  apply IH. intros q Hq. apply Hf. right. assumption.
Qed.

Lemma squares_positive (a b : R) :
  1 / 10 < sqrt (a * a + b * b) -> 0 < a * a + b * b.
Proof.
  intros Hlen. destruct (Rle_lt_dec (a * a + b * b) 0) as [Hle|Hlt]; [|assumption].
  rewrite (sqrt_neg_0 _ Hle) in Hlen. lra.
Qed.



End ExactFacts.

(** The same round trip at binary64, on eleven points from (0.1, 0.1) to
    (0.8, 0.1): the fit is a line from the first to the last point, with a
    confidence that rounding keeps within 1e-15 of 1. *)
Lemma Float64_line_round_trip :
  match recognizeShape (Samples.recognizer_with (Samples.on_line 10)) with
  | Some (r, _) =>
    shape r = shape_line /\
    (fit_confidence r >? dec 999999999999999 15)%js = true /\
    (fit_confidence r <=? int 1)%js = true /\
    points r
    = Some (LinePoints
              (nth 0 (trackPoints (Samples.recognizer_with (Samples.on_line 10)))
                   {| tx := int 0; ty := int 0; timestamp := int 0 |})
              (nth 10 (trackPoints (Samples.recognizer_with (Samples.on_line 10)))
                   {| tx := int 0; ty := int 0; timestamp := int 0 |}))
  | None => False
  end.
Proof. vm_compute. repeat split. Qed.

(** * Further properties *)

(** ** The stabilizer as a sliding window *)

Lemma lastn_app (A : Type) (n : nat) (a rest : list A) :
  lastn n (lastn n a ++ rest) = lastn n (a ++ rest).
Proof.
  unfold lastn.
  destruct (Nat.le_gt_cases (length a) n) as [Hle|Hgt].
  - replace (length a - n) with 0 by lia. reflexivity.
  - rewrite !length_app, length_skipn.
    replace (length a - (length a - n) + length rest - n) with (length rest) by lia.
    replace (length a + length rest - n) with (length rest + (length a - n)) by lia.
    rewrite <- skipn_skipn, (skipn_app (length a - n) a rest).
    replace (length a - n - length a) with 0 by lia. reflexivity.
Qed.

Lemma lastn_all (A : Type) (n : nat) (l : list A) :
  length l <= n -> lastn n l = l.
Proof. intros Hle. unfold lastn. replace (length l - n) with 0 by lia. reflexivity. Qed.

Lemma lastn_length (A : Type) (n : nat) (l : list A) :
  length (lastn n l) = Nat.min (length l) n.
Proof. unfold lastn. rewrite length_skipn. lia. Qed.

(** The end of a list is the end of its last [n] entries. *)
Lemma lastn_suffix (A : Type) (n : nat) (l t : list A) :
  length t <= n -> exists l', lastn n (l ++ t) = l' ++ t.
Proof.
  intros Hle. unfold lastn. rewrite length_app, skipn_app.
  replace (length l + length t - n - length l) with 0 by lia.
  eexists. reflexivity.
Qed.

Section WindowFacts.
Context {num : Type} `{JsNumber num}.

Lemma window_after_lastn (history : list (GestureResult num))
    (g : GestureResult num) :
  window_after history g = lastn historySize (history ++ [g]).
Proof. reflexivity. Qed.

(** Feeding results to a stabilizer within its capacity leaves the last
    [historySize] of what it held and what it was fed. *)
Lemma feed_from (gs : list (GestureResult num)) (last : option (GestureResult num))
    (s : GestureStabilizer num) :
  length (gestureHistory s) <= historySize ->
  exists r,
    feed gs last s
    = Some (r, {| gestureHistory := lastn historySize (gestureHistory s ++ gs) |}).
Proof.
  revert last s. induction gs as [|g gs IH]; intros last s Hlen.
  - exists last. simpl. unfold ret. rewrite app_nil_r, lastn_all by assumption.
    destruct s; reflexivity.
  - simpl. unfold bind.
    destruct (addGesture_select s g) as (k & c & _ & ->).
    destruct (pushed_window _ g Hlen) as [-> Hlen'].
    destruct (IH (Some (if (of_nat c >=? Math_ceil (of_nat historySize * confidenceThreshold))%js
                        then {| gtype := k; position := position g;
                                confidence := (of_nat c / of_nat historySize)%js |}
                        else {| gtype := none; position := position g;
                                confidence := int 0 |}))
                 {| gestureHistory := window_after (gestureHistory s) g |} Hlen')
      as (r & ->).
    exists r. do 3 f_equal. simpl gestureHistory.
    rewrite window_after_lastn, lastn_app, <- app_assoc. reflexivity.
Qed.

(** X1: the history of a stabilizer is a sliding window.  After [reset]
    and any number of calls of [addGesture], it holds the last five raw
    results fed (all of them when fewer), oldest first. *)
Theorem gestureHistory_window (gs : list (GestureResult num))
    (last : option (GestureResult num)) (s : GestureStabilizer num) :
  exists r,
    bind reset (fun _ => feed gs last) s
    = Some (r, {| gestureHistory := lastn historySize gs |}) /\
    length (lastn historySize gs) = Nat.min (length gs) historySize.
Proof.
  unfold bind, reset, set_gestureHistory, update.
  destruct (feed_from gs last {| gestureHistory := [] |}) as (r & E).
  { simpl. unfold historySize. lia. }
  exists r. split; [exact E|apply lastn_length].
Qed.

(** X2: the stabilizer does not smooth the position.  Every call of
    [addGesture] returns, whatever the history, and its result carries the
    position of the raw result just passed; in the branch that reads
    [gestureHistory[length - 1]] that entry is the argument. *)
Theorem addGesture_position (s : GestureStabilizer num) (g : GestureResult num) :
  exists r s',
    addGesture g s = Some (r, s') /\
    position r = position g /\
    index (gestureHistory s') (length (gestureHistory s') - 1) = Some g.
Proof.
  destruct (addGesture_select s g) as (k & c & _ & E).
  destruct (pushed_last (gestureHistory s) g) as (l & Hl).
  eexists _, _. split; [exact E|]. split.
  - destruct (of_nat c >=? Math_ceil (of_nat historySize * confidenceThreshold))%js;
      reflexivity.
  - simpl gestureHistory. rewrite Hl. apply index_last.
Qed.

End WindowFacts.

(** ** The stabilizer at binary64: warm-up, latency, and what [App] makes
    of its results *)

Lemma Float64_addGesture_cases (s : GestureStabilizer float) (g : GestureResult float) :
  length (gestureHistory s) <= historySize ->
  let w := window_after (gestureHistory s) g in
  (forall k, 3 <= occurrences k w ->
     addGesture g s
     = Some ({| gtype := k; position := position g;
                confidence := (of_nat (occurrences k w) / of_nat historySize)%js |},
             {| gestureHistory := w |})) /\
  ((forall k, occurrences k w < 3) ->
     addGesture g s
     = Some ({| gtype := none; position := position g; confidence := int 0 |},
             {| gestureHistory := w |})).
Proof.
  intros Hlen w.
  destruct (Float64_addGesture s g Hlen)
    as (k0 & _ & _ & _ & _ & _ & Hmax & _ & Hrun).
  fold w in Hmax, Hrun. rewrite Hrun. split.
  - intros k H3.
    assert (k0 = k) as ->.
    { destruct (GestureType_eqb k0 k) eqn:E.
      - apply GestureType_eqb_eq. assumption.
      - apply (proj1 (GestureType_eqb_neq _ _)) in E.
        pose proof (occurrences_disjoint w E).
        pose proof (window_after_length _ g Hlen) as Hw. fold w in Hw.
        specialize (Hmax k). unfold historySize in *. lia. }
    destruct (Nat.leb_spec 3 (occurrences k w)); [reflexivity|lia].
  - intros Hlow. specialize (Hlow k0).
    destruct (Nat.leb_spec 3 (occurrences k0 w)); [lia|reflexivity].
Qed.

(** X3: warm-up.  While the history holds fewer than two results (after
    [reset], or in a new stabilizer, for the first two calls) [addGesture]
    answers [none] with confidence 0, whatever it is fed. *)
Theorem addGesture_warm_up (s : GestureStabilizer float) (g : GestureResult float) :
  length (gestureHistory s) < 2 ->
  addGesture g s
  = Some ({| gtype := none; position := position g; confidence := int 0 |},
          {| gestureHistory := gestureHistory s ++ [g] |}).
Proof.
  intros Hlen.
  assert (Hcap : length (gestureHistory s) <= historySize)
    by (unfold historySize; lia).
  destruct (Float64_addGesture_cases s g Hcap) as [_ Hnone].
  assert (Ew : window_after (gestureHistory s) g = gestureHistory s ++ [g]).
  { rewrite window_after_lastn. apply lastn_all.
    rewrite length_app. simpl. unfold historySize. lia. }
  rewrite Ew in Hnone. apply Hnone.
  intros k. pose proof (occurrences_le_length k (gestureHistory s ++ [g])) as Hle.
  rewrite length_app in Hle. simpl in Hle. lia.
Qed.

Lemma addGesture_warm_up_witness :
  bind reset (fun _ => bind (addGesture (Samples.raw draw 10 20))
                            (fun _ => addGesture (Samples.raw draw 30 40)))
       (Samples.stabilizer_of [draw; draw; draw; draw; draw])
  = Some ({| gtype := none; position := position (Samples.raw draw 30 40);
             confidence := int 0 |},
          {| gestureHistory := [Samples.raw draw 10 20; Samples.raw draw 30 40] |}).
Proof.
  unfold bind, reset, set_gestureHistory, update.
  rewrite (addGesture_warm_up {| gestureHistory := [] |} (Samples.raw draw 10 20))
    by (simpl; lia).
  apply (addGesture_warm_up {| gestureHistory := [Samples.raw draw 10 20] |}
                            (Samples.raw draw 30 40)).
  simpl. lia.
Defined.

Section FeedFacts.
Context {num : Type} `{JsNumber num}.

Lemma feed_snoc (gs : list (GestureResult num)) (g : GestureResult num)
    (last : option (GestureResult num)) (s : GestureStabilizer num) :
  feed (gs ++ [g]) last s
  = match feed gs last s with
    | Some (_, s') =>
      match addGesture g s' with
      | Some (r, s'') => Some (Some r, s'')
      | None => None
      end
    | None => None
    end.
Proof.
  revert last s. induction gs as [|g0 gs IH]; intros last s; simpl.
  - unfold bind, ret. destruct (addGesture g s) as [[r s'']|]; reflexivity.
  - unfold bind. destruct (addGesture g0 s) as [[r s']|]; [apply IH|reflexivity].
Qed.

End FeedFacts.

(** X4: latency.  Three raw results of one kind in a row bring the
    stabilizer to that kind, whatever it held before: the third call
    answers that kind, with the position of the third result and a
    confidence of 3/5, 4/5 or 5/5. *)
Theorem addGesture_three_in_a_row (s : GestureStabilizer float)
    (k : GestureType) (g1 g2 g3 : GestureResult float) :
  length (gestureHistory s) <= historySize ->
  gtype g1 = k -> gtype g2 = k -> gtype g3 = k ->
  exists c s',
    3 <= c <= 5 /\
    feed [g1; g2; g3] None s
    = Some (Some {| gtype := k; position := position g3;
                    confidence := (of_nat c / of_nat historySize)%js |}, s').
Proof.
  intros Hlen E1 E2 E3.
  change [g1; g2; g3] with ([g1; g2] ++ [g3]). rewrite feed_snoc.
  destruct (feed_from [g1; g2] None s Hlen) as (r & ->).
  set (h2 := lastn historySize (gestureHistory s ++ [g1; g2])).
  assert (Hlen2 : length (gestureHistory {| gestureHistory := h2 |}) <= historySize).
  { simpl. subst h2. rewrite lastn_length. lia. }
  destruct (Float64_addGesture_cases {| gestureHistory := h2 |} g3 Hlen2) as [Hk _].
  simpl gestureHistory in Hk.
  assert (Ew : exists l', window_after h2 g3 = l' ++ [g1; g2; g3]).
  { subst h2. rewrite window_after_lastn, lastn_app, <- app_assoc.
    apply lastn_suffix. simpl. unfold historySize. lia. }
  destruct Ew as (l' & Ew).
  assert (H3 : 3 <= occurrences k (window_after h2 g3)).
  { rewrite Ew. unfold occurrences. rewrite filter_app, length_app. simpl.
    rewrite E1, E2, E3, GestureType_eqb_refl. simpl. lia. }
  rewrite (Hk k H3).
  exists (occurrences k (window_after h2 g3)), {| gestureHistory := window_after h2 g3 |}.
  split; [|reflexivity]. split; [assumption|].
  pose proof (occurrences_le_length k (window_after h2 g3)).
  pose proof (window_after_length _ g3 Hlen2). simpl in *. unfold historySize in *. lia.
Qed.

Lemma addGesture_three_in_a_row_witness :
  exists c s',
    3 <= c <= 5 /\
    feed [Samples.raw draw 1 1; Samples.raw draw 2 2; Samples.raw draw 3 3] None
         (Samples.stabilizer_of [erase; erase; erase; erase; erase])
    = Some (Some {| gtype := draw; position := position (Samples.raw draw 3 3);
                    confidence := (of_nat c / of_nat historySize)%js |}, s').
Proof.
  apply (addGesture_three_in_a_row
           (Samples.stabilizer_of [erase; erase; erase; erase; erase])
           (k := draw)); [vm_compute; lia|reflexivity..].
Defined.

(** The confidences that the stabilizer emits, against the tests of
    [App]: 3/5 does not exceed 0.6. *)
Lemma Float64_confidence_tests (c : nat) :
  3 <= c <= 5 ->
  (((of_nat c / of_nat historySize)%js : float) >? dec 6 1)%js = (4 <=? c)%nat /\
  (((of_nat c / of_nat historySize)%js : float) >? dec 3 1)%js = true.
Proof.
  intros [H3 H5].
  do 3 (destruct c as [|c]; [lia|]).
  do 3 (destruct c as [|c]; [vm_compute; split; reflexivity|]). lia.
Qed.

Lemma all_kinds (k : GestureType) :
  In k [draw; erase; menu; none; line; rectangle; circle].
Proof. destruct k; simpl; tauto. Qed.

(** X5: what [App] makes of a stabilized result.  A kind switches its
    canvas mode on ([isDrawing], [isErasing], [isVectorDrawing]: kind and
    [confidence > 0.6]) exactly when it fills at least four of the five
    places of the window: three make the confidence 0.6, which is not above
    0.6.  The cursor ([confidence > 0.3]) is shown exactly when some kind
    fills at least three places, and then at the position of the last raw
    result. *)
Theorem App_modes (s : GestureStabilizer float) (g : GestureResult float) :
  length (gestureHistory s) <= historySize ->
  let w := window_after (gestureHistory s) g in
  exists r,
    addGesture g s = Some (r, {| gestureHistory := w |}) /\
    isDrawing r = (4 <=? occurrences draw w)%nat /\
    isErasing r = (4 <=? occurrences erase w)%nat /\
    isVectorDrawing r
    = existsb (fun k => (4 <=? occurrences k w)%nat) [line; rectangle; circle] /\
    currentPoint r
    = if existsb (fun k => (3 <=? occurrences k w)%nat)
                 [draw; erase; menu; none; line; rectangle; circle]
      then Some (position g) else None.
Proof.
  intros Hlen w.
  destruct (Float64_addGesture s g Hlen)
    as (k & _ & _ & _ & _ & _ & Hmax & _ & Hrun).
  fold w in Hmax, Hrun.
  pose proof (window_after_length _ g Hlen) as Hw. fold w in Hw.
  unfold historySize in Hw.
  eexists. split; [exact Hrun|].
  assert (Hmode : forall k',
    (GestureType_eqb
       (gtype (if (3 <=? occurrences k w)%nat
               then {| gtype := k; position := position g;
                       confidence := (of_nat (occurrences k w) / of_nat historySize)%js |}
               else {| gtype := none; position := position g; confidence := int 0 |}))
       k'
     && (confidence
           (if (3 <=? occurrences k w)%nat
            then {| gtype := k; position := position g;
                    confidence := (of_nat (occurrences k w) / of_nat historySize)%js |}
            else {| gtype := none; position := position g; confidence := int 0 |})
         >? dec 6 1)%js)
    = (4 <=? occurrences k' w)%nat).
  { intros k'. destruct (Nat.leb_spec 3 (occurrences k w)) as [H3|Hlow].
    - cbn [gtype confidence].
      pose proof (occurrences_le_length k w) as Hle.
      destruct (Float64_confidence_tests (c := occurrences k w)) as [-> _]; [lia|].
      destruct (GestureType_eqb k k') eqn:E.
      + apply (proj1 (GestureType_eqb_eq _ _)) in E. subst. reflexivity.
      + apply (proj1 (GestureType_eqb_neq _ _)) in E.
        pose proof (occurrences_disjoint w E).
        symmetry. apply Nat.leb_gt. lia.
    - cbn [gtype confidence].
      replace ((int 0 : float) >? dec 6 1)%js with false by (vm_compute; reflexivity).
      rewrite andb_false_r. symmetry. apply Nat.leb_gt.
      specialize (Hmax k'). lia. }
  split; [exact (Hmode draw)|]. split; [exact (Hmode erase)|]. split.
  - unfold isVectorDrawing. cbn [existsb].
    rewrite <- (Hmode line), <- (Hmode rectangle), <- (Hmode circle).
    rewrite (GestureType_eqb_sym line), (GestureType_eqb_sym rectangle),
      (GestureType_eqb_sym circle).
    repeat match goal with
           | |- context [GestureType_eqb ?a ?b] =>
             destruct (GestureType_eqb a b)
           end;
      match goal with
      | |- context [(?a >? ?b)%js] => destruct (a >? b)%js
      end; reflexivity.
  - unfold currentPoint.
    destruct (Nat.leb_spec 3 (occurrences k w)) as [H3|Hlow].
    + cbn [confidence position].
      pose proof (occurrences_le_length k w) as Hle.
      destruct (Float64_confidence_tests (c := occurrences k w)) as [_ ->]; [lia|].
      replace (existsb _ _) with true; [reflexivity|].
      symmetry. apply existsb_exists. exists k.
      split; [apply all_kinds|apply Nat.leb_le; assumption].
    + cbn [confidence position].
      replace ((int 0 : float) >? dec 3 1)%js with false by (vm_compute; reflexivity).
      replace (existsb _ _) with false; [reflexivity|].
      symmetry. apply not_true_is_false. intros Hex.
      apply existsb_exists in Hex. destruct Hex as (k' & _ & Hk').
      apply Nat.leb_le in Hk'. specialize (Hmax k'). lia.
Qed.

Lemma App_modes_witness :
  let s := Samples.stabilizer_of [erase; draw; draw; menu] in
  let g := Samples.raw draw 10 20 in
  let w := window_after (gestureHistory s) g in
  exists r,
    addGesture g s = Some (r, {| gestureHistory := w |}) /\
    isDrawing r = (4 <=? occurrences draw w)%nat /\
    isErasing r = (4 <=? occurrences erase w)%nat /\
    isVectorDrawing r
    = existsb (fun k => (4 <=? occurrences k w)%nat) [line; rectangle; circle] /\
    currentPoint r
    = if existsb (fun k => (3 <=? occurrences k w)%nat)
                 [draw; erase; menu; none; line; rectangle; circle]
      then Some (position g) else None.
Proof.
  intros s g. apply (App_modes s g). vm_compute. lia.
Defined.

(** Three of five: the stabilizer answers [draw], and [App] does not
    draw. *)
Lemma three_of_five_does_not_draw :
  match addGesture (Samples.raw draw 10 20)
                   (Samples.stabilizer_of [erase; draw; draw; menu]) with
  | Some (r, _) =>
    gtype r = draw /\ confidence r = dec 6 1 /\ isDrawing r = false /\
    currentPoint r = Some (position (Samples.raw draw 10 20))
  | None => False
  end.
Proof. vm_compute. repeat split. Qed.

(** ** Frames without a hand *)

Section FrameFacts.
Context {num : Type} `{JsNumber num}.

Lemma results_effect_no_hand (r : option (HandResults num)) (a : App num) :
  has_hand r = false ->
  results_effect r a
  = Some (tt, {| gestureStabilizer := gestureStabilizer a;
                 currentGesture := noGesture |}).
Proof.
  destruct r as [[[[|hand hands]|]]|]; simpl; intros E;
    reflexivity || discriminate.
Qed.

Lemma results_effect_hand (r : option (HandResults num)) (a : App num) :
  has_hand r = true ->
  exists (raw stabilized : GestureResult num),
    addGesture raw (gestureStabilizer a)
    = Some (stabilized,
            {| gestureHistory := pushed (gestureHistory (gestureStabilizer a)) raw |}) /\
    (forall a' : App num,
        gestureStabilizer a' = gestureStabilizer a ->
        results_effect r a'
        = Some (tt, {| gestureStabilizer :=
                         {| gestureHistory :=
                              pushed (gestureHistory (gestureStabilizer a)) raw |};
                       currentGesture := stabilized |})).
Proof.
  destruct r as [[[[|hand hands]|]]|]; intros E; try discriminate.
  destruct (recognizeGesture_returns (Some hand)) as (raw & Eraw).
  destruct (addGesture_select (gestureStabilizer a) raw) as (k & c & _ & Erun).
  eexists raw, _. split; [exact Erun|].
  intros a' Ea'.
  unfold results_effect.
  change (0 <? length (hand :: hands)) with true. cbv beta iota zeta.
  change (index (hand :: hands) 0) with (Some hand).
  unfold bind, deref. rewrite Eraw.
  unfold on_stabilizer. rewrite Ea', Erun. reflexivity.
Qed.

(** X6: frames without a hand do not reach the stabilizer.  The effect of
    [App] returns on every frame; the stabilizer after a run of frames is
    the one after the frames of the run that show a hand, so the results
    from before a loss of the hand still count when it comes back; a frame
    without a hand sets the current gesture to the zero result. *)
Theorem frames_without_hand :
  (forall (rs : list (option (HandResults num))) (a : App num),
      exists a1 a2,
        frames rs a = Some (tt, a1) /\
        frames (filter has_hand rs) a = Some (tt, a2) /\
        gestureStabilizer a1 = gestureStabilizer a2) /\
  (forall (rs : list (option (HandResults num))) (r : option (HandResults num))
          (a : App num),
      has_hand r = false ->
      exists a1,
        frames rs a = Some (tt, a1) /\
        frames (rs ++ [r]) a
        = Some (tt, {| gestureStabilizer := gestureStabilizer a1;
                       currentGesture := noGesture |})).
Proof.
  assert (Hrun : forall (rs : list (option (HandResults num))) (a a' : App num),
    gestureStabilizer a = gestureStabilizer a' ->
    exists a1 a2,
      frames rs a = Some (tt, a1) /\
      frames (filter has_hand rs) a' = Some (tt, a2) /\
      gestureStabilizer a1 = gestureStabilizer a2).
  { induction rs as [|r rs IH]; intros a a' Ea.
    - exists a, a'. repeat split. assumption.
    - simpl. destruct (has_hand r) eqn:Er.
      + destruct (results_effect_hand r a Er) as (raw & st & _ & Heff).
        simpl. unfold bind.
        rewrite (Heff a eq_refl), (Heff a' (eq_sym Ea)).
        apply IH. reflexivity.
      + unfold bind at 1. rewrite (results_effect_no_hand r a Er).
        apply IH. simpl. assumption. }
  split.
  - intros rs a. apply Hrun. reflexivity.
  - intros rs r a Er.
    revert a. induction rs as [|r0 rs IH]; intros a.
    + exists a. split; [reflexivity|].
      simpl. unfold bind. rewrite (results_effect_no_hand r a Er). reflexivity.
    + simpl. unfold bind.
      destruct (has_hand r0) eqn:Er0.
      * destruct (results_effect_hand r0 a Er0) as (raw & st & _ & Heff).
        rewrite (Heff a eq_refl). apply IH.
      * rewrite (results_effect_no_hand r0 a Er0). apply IH.
Qed.

End FrameFacts.

Lemma frames_without_hand_witness :
  let r := @None (HandResults float) in
  exists a1,
    frames [Some {| multiHandLandmarks := Some [Samples.two_fingers] |}] new_App
    = Some (tt, a1) /\
    frames ([Some {| multiHandLandmarks := Some [Samples.two_fingers] |}] ++ [r])
           new_App
    = Some (tt, {| gestureStabilizer := gestureStabilizer a1;
                   currentGesture := noGesture |}).
Proof.
  intros r.
  apply (proj2 frames_without_hand
               [Some {| multiHandLandmarks := Some [Samples.two_fingers] |}] r new_App).
  reflexivity.
Defined.

(** ** More on the static pose classifier *)

Section ClassifierMore.
Context {num : Type} `{JsNumber num}.
Local Open Scope js_scope.

(** X7: the confidence of a raw result is a function of its kind: 0.85
    for line, 0.8 for circle, rectangle and draw, 0.7 for erase, 0.9 for
    menu and 0 for none, on every input. *)
Theorem recognizeGesture_confidence (landmarks : option (list (HandLandmark num))) :
  exists r,
    recognizeGesture landmarks = Some r /\
    confidence r = confidence_of (gtype r).
Proof.
  destruct landmarks as [landmarks|]; [|eexists; split; reflexivity].
  destruct (Nat.ltb_spec (length landmarks) 21) as [Hlt|Hge].
  - unfold recognizeGesture.
    apply Nat.ltb_lt in Hlt. rewrite Hlt. eexists; split; reflexivity.
  - open_hand landmarks Hge. run_poses. split_ifs; eexists; split; reflexivity.
Qed.

(** X8: the poses that can hold at once.  Of the six pose predicates, two
    different ones hold of the same landmarks only as line with circle,
    circle with menu, or rectangle with erase; these are the only pairs
    between which the order of the tests decides. *)
Theorem poses_overlap (landmarks : list (HandLandmark num))
    (k1 k2 : GestureType) :
  k1 <> k2 ->
  pose k1 landmarks = Some true ->
  pose k2 landmarks = Some true ->
  In (k1, k2) [(line, circle); (circle, line); (circle, menu); (menu, circle);
               (rectangle, erase); (erase, rectangle)].
Proof.
  intros Hne.
  destruct k1, k2; try congruence; try (intros _ _; simpl; tauto);
    try (simpl; intros; discriminate);
    unfold pose, isLineGesture, isCircleGesture, isRectangleGesture,
      isDrawingGesture, isErasingGesture, isMenuGesture;
    destruct (isFingerExtended landmarks INDEX_FINGER_TIP INDEX_FINGER_PIP)
      as [[|]|];
    destruct (isFingerExtended landmarks MIDDLE_FINGER_TIP MIDDLE_FINGER_PIP)
      as [[|]|];
    destruct (isFingerExtended landmarks RING_FINGER_TIP (RING_FINGER_TIP - 2))
      as [[|]|];
    destruct (isFingerExtended landmarks PINKY_TIP (PINKY_TIP - 2))
      as [[|]|];
    destruct (index landmarks THUMB_TIP) as [thumbTip|];
    destruct (index landmarks INDEX_FINGER_TIP) as [indexTip|];
    destruct (index landmarks (THUMB_TIP - 1)) as [thumbIp|];
    cbv beta iota zeta;
    repeat match goal with
           | |- context [(?a <? ?b)%js] => destruct (a <? b)%js
           end;
    simpl; congruence.
Qed.

End ClassifierMore.

Lemma poses_overlap_witness :
  In (line, circle)
     [(line, circle); (circle, line); (circle, menu); (menu, circle);
      (rectangle, erase); (erase, rectangle)].
Proof.
  apply (poses_overlap Samples.two_fingers_pinched (k1 := line) (k2 := circle)).
  - discriminate.
  - vm_compute. reflexivity.
  - vm_compute. reflexivity.
Defined.

(** Each of the three pairs does occur, and the earlier test decides. *)
Lemma overlapping_poses :
  (pose line Samples.two_fingers_pinched = Some true /\
   pose circle Samples.two_fingers_pinched = Some true /\
   option_map (@gtype float) (recognizeGesture (Some Samples.two_fingers_pinched))
   = Some line) /\
  (pose circle Hands.open_pinched = Some true /\
   pose menu Hands.open_pinched = Some true /\
   option_map (@gtype float) (recognizeGesture (Some Hands.open_pinched))
   = Some circle) /\
  (pose rectangle Hands.thumb_up = Some true /\
   pose erase Hands.thumb_up = Some true /\
   option_map (@gtype float) (recognizeGesture (Some Hands.thumb_up))
   = Some rectangle).
Proof. vm_compute. repeat split. Qed.

Section ClassifierReads.
Context {num : Type} `{JsNumber num}.

(** X9: what the classifier reads.  The result depends on the [x] and [y]
    of the landmarks 0, 3, 4, 6, 8, 10, 12, 14, 16, 18 and 20 only: two
    arrays of 21 landmarks or more that agree there are classified alike;
    no [z] and no other landmark is looked at. *)
Theorem recognizeGesture_reads (landmarks landmarks' : list (HandLandmark num)) :
  21 <= length landmarks ->
  21 <= length landmarks' ->
  (forall i, In i landmarks_read ->
             option_map (fun l => (lx l, ly l)) (index landmarks i)
             = option_map (fun l => (lx l, ly l)) (index landmarks' i)) ->
  recognizeGesture (Some landmarks) = recognizeGesture (Some landmarks').
Proof.
  intros Hlen Hlen' Hagree.
  pose proof (short_guard _ Hlen) as E. pose proof (short_guard _ Hlen') as E'.
  destruct (at_least_21 _ Hlen)
    as (a0 & a1 & a2 & a3 & a4 & a5 & a6 & a7 & a8 & a9 & a10 & a11 & a12
        & a13 & a14 & a15 & a16 & a17 & a18 & a19 & a20 & rest & ->).
  destruct (at_least_21 _ Hlen')
    as (b0 & b1 & b2 & b3 & b4 & b5 & b6 & b7 & b8 & b9 & b10 & b11 & b12
        & b13 & b14 & b15 & b16 & b17 & b18 & b19 & b20 & rest' & ->).
  unfold recognizeGesture. rewrite E, E'. clear E E' Hlen Hlen'.
  pose proof (Hagree 0 ltac:(simpl; tauto)) as H0.
  pose proof (Hagree 3 ltac:(simpl; tauto)) as H3.
  pose proof (Hagree 4 ltac:(simpl; tauto)) as H4.
  pose proof (Hagree 6 ltac:(simpl; tauto)) as H6.
  pose proof (Hagree 8 ltac:(simpl; tauto)) as H8.
  pose proof (Hagree 10 ltac:(simpl; tauto)) as H10.
  pose proof (Hagree 12 ltac:(simpl; tauto)) as H12.
  pose proof (Hagree 14 ltac:(simpl; tauto)) as H14.
  pose proof (Hagree 16 ltac:(simpl; tauto)) as H16.
  pose proof (Hagree 18 ltac:(simpl; tauto)) as H18.
  pose proof (Hagree 20 ltac:(simpl; tauto)) as H20.
  clear Hagree. simpl in *.
  injection H0 as X0 Y0. injection H3 as X3 Y3. injection H4 as X4 Y4.
  injection H6 as X6 Y6. injection H8 as X8 Y8. injection H10 as X10 Y10.
  injection H12 as X12 Y12. injection H14 as X14 Y14. injection H16 as X16 Y16.
  injection H18 as X18 Y18. injection H20 as X20 Y20.
  run_poses. unfold calculateDistance.
  rewrite ?X0, ?Y0, ?X3, ?Y3, ?X4, ?Y4, ?X6, ?Y6, ?X8, ?Y8, ?X10, ?Y10, ?X12,
    ?Y12, ?X14, ?Y14, ?X16, ?Y16, ?X18, ?Y18, ?X20, ?Y20.
  reflexivity.
Qed.

End ClassifierReads.

Lemma recognizeGesture_reads_witness :
  recognizeGesture (Some Samples.two_fingers)
  = recognizeGesture
      (Some (map (fun l => {| lx := lx l; ly := ly l; lz := dec 5 1 |})
                 Samples.two_fingers
             ++ [Samples.landmark (dec 1 1) (dec 1 1)])).
Proof.
  apply (recognizeGesture_reads (num := float)).
  - vm_compute. lia.
  - vm_compute. lia.
  - intros i Hi. unfold landmarks_read in Hi. simpl in Hi.
    repeat (destruct Hi as [<-|Hi]; [reflexivity|]). destruct Hi.
Defined.

(** ** More on the shape fitter *)

Section FitterMore.
Context {num : Type} `{JsNumber num}.
Local Open Scope js_scope.

Lemma detectCircle_payload (s : ShapeRecognizer num) :
  exists c center radius,
    detectCircle s = Some (c, after_reading s) /\
    shape c = shape_circle /\
    points c = Some (CirclePoints center radius) /\
    timestamp center = wallClock s 0.
Proof.
  unfold detectCircle, bind, read, Date_now, ret.
  destruct (fold_left _ (trackPoints s) (int 0, int 0)) as [centerX centerY].
  eexists _, _, _. repeat split.
Qed.

Lemma detectRectangle_payload (s : ShapeRecognizer num) :
  exists r topLeft bottomRight,
    detectRectangle s = Some (r, after_reading (after_reading s)) /\
    shape r = shape_rectangle /\
    points r = Some (RectanglePoints topLeft bottomRight) /\
    timestamp topLeft = wallClock s 0 /\
    timestamp bottomRight = wallClock s 1.
Proof.
  unfold detectRectangle, bind, read, Date_now, ret.
  destruct (fold_left _ (trackPoints s) (Infinity, Infinity, neg Infinity, neg Infinity))
    as [[[minX minY] maxX] maxY].
  eexists _, _, _. repeat split.
Qed.

(** The four forms of a result of [recognizeShape]. *)
Lemma recognizeShape_forms (s : ShapeRecognizer num) :
  exists r s',
    recognizeShape s = Some (r, s') /\
    trackPoints s' = trackPoints s /\
    (r = noShape \/
     (shape r = shape_line /\ (fit_confidence r >? dec 7 1) = true /\
      exists start mid end_,
        trackPoints s = start :: mid ++ [end_] /\
        points r = Some (LinePoints start end_)) \/
     (shape r = shape_circle /\ (fit_confidence r >? dec 6 1) = true /\
      exists center radius, points r = Some (CirclePoints center radius)) \/
     (shape r = shape_rectangle /\ (fit_confidence r >? dec 6 1) = true /\
      exists topLeft bottomRight,
        points r = Some (RectanglePoints topLeft bottomRight))).
Proof.
  destruct (Nat.lt_ge_cases (length (trackPoints s)) minPointsForRecognition)
    as [Hlt|Hge].
  - exists noShape, s. split; [|split; [reflexivity|left; reflexivity]].
    unfold recognizeShape, bind, read.
    apply Nat.ltb_lt in Hlt. rewrite Hlt. reflexivity.
  - destruct (at_least_two (trackPoints s)) as (start & mid & end_ & Ea).
    { unfold minPointsForRecognition in Hge. lia. }
    pose proof (@detectLine_fit _ _ s start end_ mid Ea) as Eline.
    cbv zeta in Eline.
    destruct (detectCircle_payload s) as (c & center & radius & Ec & Hc & Hcp & _).
    destruct (detectRectangle_payload (after_reading s))
      as (r & topLeft & bottomRight & Er & Hr & Hrp & _).
    unfold recognizeShape. unfold bind at 1, read.
    apply Nat.ltb_ge in Hge. rewrite Hge.
    unfold bind at 1. rewrite Eline. cbv beta iota.
    match goal with
    | |- context [if (fit_confidence ?l >? dec 7 1) then _ else _] =>
      destruct (fit_confidence l >? dec 7 1) eqn:Hl
    end.
    { eexists _, _. split; [reflexivity|]. split; [reflexivity|]. right; left.
      split; [reflexivity|]. split; [exact Hl|]. eauto. }
    unfold bind at 1. rewrite Ec. cbv beta iota.
    destruct (fit_confidence c >? dec 6 1) eqn:Hc6.
    { eexists _, _. split; [reflexivity|]. split; [reflexivity|].
      right; right; left. eauto. }
    unfold bind at 1. rewrite Er. cbv beta iota.
    destruct (fit_confidence r >? dec 6 1) eqn:Hr6.
    { eexists _, _. split; [reflexivity|]. split; [reflexivity|].
      right; right; right. eauto 6. }
    eexists _, _. split; [reflexivity|]. split; [reflexivity|]. left. reflexivity.
Qed.

(** X10: what [recognizeShape] can return.  Every call returns, and the
    result is one of four: no shape, with confidence 0 and no points; a
    line from the first to the last buffered point, with a confidence
    above 0.7; a circle with centre and radius, above 0.6; a rectangle
    with two corners, above 0.6.  The tag and the points always fit
    together, and the confidence of a shape is never NaN. *)
Theorem recognizeShape_result (s : ShapeRecognizer num) :
  exists r s',
    recognizeShape s = Some (r, s') /\
    (r = noShape \/
     (shape r = shape_line /\ (fit_confidence r >? dec 7 1) = true /\
      exists start mid end_,
        trackPoints s = start :: mid ++ [end_] /\
        points r = Some (LinePoints start end_)) \/
     (shape r = shape_circle /\ (fit_confidence r >? dec 6 1) = true /\
      exists center radius, points r = Some (CirclePoints center radius)) \/
     (shape r = shape_rectangle /\ (fit_confidence r >? dec 6 1) = true /\
      exists topLeft bottomRight,
        points r = Some (RectanglePoints topLeft bottomRight))).
Proof.
  destruct (recognizeShape_forms s) as (r & s' & E & _ & Hforms).
  exists r, s'. split; assumption.
Qed.

(** X12: what [Canvas] does with a fit.  [handleShapeRecognition] asks the
    recognizer once.  When the fit has points and a confidence above 0.7,
    one shape of that kind, with the geometry of the fit and the colour
    and width of the settings, is appended to [vectorShapes] and passed to
    [onShapeComplete], and the buffer is cleared.  Otherwise (no shape, or
    a circle or rectangle at 0.7 or below, which the recognizer had
    accepted above 0.6) nothing is appended and the buffer is kept. *)
Theorem handleShapeRecognition_threshold (settings : DrawingSettings num)
    (c : Canvas num) (recognizer : ShapeRecognizer num) :
  shapeRecognizer c = Some recognizer ->
  exists r recognizer',
    recognizeShape recognizer = Some (r, recognizer') /\
    trackPoints recognizer' = trackPoints recognizer /\
    match (if fit_confidence r >? dec 7 1 then points r else None) with
    | Some pts =>
      let v := {| vtype := shape r;
                  shape_id := auto_id (shape r) (wallClock recognizer' 0);
                  color := settings_color settings;
                  strokeWidth := brushSize settings;
                  geometry := geometry_of pts |} in
      handleShapeRecognition settings c
      = Some (tt, {| shapeRecognizer :=
                       Some {| trackPoints := [];
                               wallClock := fun k => wallClock recognizer' (S k) |};
                     vectorShapes := vectorShapes c ++ [v];
                     completed := completed c ++ [v] |})
    | None =>
      handleShapeRecognition settings c
      = Some (tt, {| shapeRecognizer := Some recognizer';
                     vectorShapes := vectorShapes c;
                     completed := completed c |})
    end.
Proof.
  intros Hrec.
  destruct (recognizeShape_forms recognizer) as (r & recognizer' & E & Etrack & Hforms).
  exists r, recognizer'. split; [exact E|]. split; [exact Etrack|].
  destruct c as [sr shapes done]. cbn [shapeRecognizer] in Hrec. subst sr.
  unfold handleShapeRecognition, bind, on_recognizer.
  cbn [shapeRecognizer vectorShapes completed]. rewrite E. cbv beta iota.
  destruct r as [sh cf pts]. cbn [shape fit_confidence points] in *.
  destruct Hforms as [Hnone | [(-> & _ & start & mid & end_ & _ & ->)
                              | [(-> & _ & center & radius & ->)
                                | (-> & _ & topLeft & bottomRight & ->)]]].
  - injection Hnone as -> -> ->.
    destruct (int 0 >? dec 7 1); reflexivity.
  - destruct (cf >? dec 7 1); reflexivity.
  - destruct (cf >? dec 7 1); reflexivity.
  - destruct (cf >? dec 7 1); reflexivity.
Qed.


(** X11: a cleared buffer needs ten points.  After [clearTrack], fewer
    than 10 calls of [addPoint] leave [recognizeShape] without a shape,
    wherever the points lie; the buffer then holds exactly the points
    added. *)
Theorem recognizeShape_after_clear (s : ShapeRecognizer num)
    (ps : list (Position num)) :
  length ps < minPointsForRecognition ->
  exists s',
    bind clearTrack (fun _ => bind (addPoints ps) (fun _ => recognizeShape)) s
    = Some (noShape, s') /\
    trackPoints s' = stamped (wallClock s) ps.
Proof.
  intros Hlen.
  unfold bind at 1, clearTrack, set_trackPoints, update.
  destruct (addPoints_from ps {| trackPoints := []; wallClock := wallClock s |})
    as (clock' & E).
  { simpl. unfold maxTrackPoints. lia. }
  simpl app in E. cbv zeta in E. rewrite stamped_length in E.
  unfold minPointsForRecognition, maxTrackPoints in *.
  replace (length ps - 50)%nat with 0%nat in E by lia. simpl skipn in E.
  unfold bind at 1. rewrite E.
  assert (Eguard : forall s0 : ShapeRecognizer num,
             length (trackPoints s0) < 10 -> recognizeShape s0 = Some (noShape, s0)).
  { intros s0 H0. unfold recognizeShape, bind, read.
    apply Nat.ltb_lt in H0. unfold minPointsForRecognition. rewrite H0.
    reflexivity. }
  rewrite Eguard by (simpl; rewrite stamped_length; assumption).
  eexists. split; reflexivity.
Qed.

End FitterMore.

Lemma recognizeShape_after_clear_witness :
  exists s',
    bind clearTrack
         (fun _ => bind (addPoints (Samples.on_line 8)) (fun _ => recognizeShape))
         (Samples.recognizer_with (Samples.on_line 30))
    = Some (noShape, s') /\
    trackPoints s' = stamped Samples.clock (Samples.on_line 8).
Proof.
  apply (recognizeShape_after_clear (Samples.recognizer_with (Samples.on_line 30))
                                    (Samples.on_line 8)).
  vm_compute. lia.
Defined.

Lemma handleShapeRecognition_threshold_witness :
  let c := {| shapeRecognizer := Some (Samples.recognizer_with (Samples.on_line 10));
              vectorShapes := []; completed := [] |} in
  let settings := {| settings_color := String.EmptyString; brushSize := int 5;
                     eraserSize := int 20; vectorMode := true |} in
  exists r recognizer',
    recognizeShape (Samples.recognizer_with (Samples.on_line 10))
    = Some (r, recognizer') /\
    trackPoints recognizer'
    = trackPoints (Samples.recognizer_with (Samples.on_line 10)) /\
    match (if (fit_confidence r >? dec 7 1)%js then points r else None) with
    | Some pts =>
      let v := {| vtype := shape r;
                  shape_id := auto_id (shape r) (wallClock recognizer' 0);
                  color := settings_color settings;
                  strokeWidth := brushSize settings;
                  geometry := geometry_of pts |} in
      handleShapeRecognition settings c
      = Some (tt, {| shapeRecognizer :=
                       Some {| trackPoints := [];
                               wallClock := fun k => wallClock recognizer' (S k) |};
                     vectorShapes := vectorShapes c ++ [v];
                     completed := completed c ++ [v] |})
    | None =>
      handleShapeRecognition settings c
      = Some (tt, {| shapeRecognizer := Some recognizer';
                     vectorShapes := vectorShapes c;
                     completed := completed c |})
    end.
Proof.
  intros c settings.
  apply (handleShapeRecognition_threshold settings c). reflexivity.
Defined.

(** On the eleven points of a line the shape is added and the buffer
    cleared. *)
Lemma handleShapeRecognition_line :
  match handleShapeRecognition
          {| settings_color := String.EmptyString; brushSize := int 5;
             eraserSize := int 20; vectorMode := true |}
          {| shapeRecognizer := Some (Samples.recognizer_with (Samples.on_line 10));
             vectorShapes := []; completed := [] |} with
  | Some (_, c') =>
    map (@vtype float) (vectorShapes c') = [shape_line] /\
    vectorShapes c' = completed c' /\
    option_map (@trackPoints float) (shapeRecognizer c') = Some []
  | None => False
  end.
Proof. vm_compute. repeat split. Qed.

(** ** The fitters on real coordinates

    On a buffer whose coordinates are all real numbers no operation of the
    fitters leaves the reals, and each fitter computes the quantity its
    name says. *)

Module ExactFits.
Import Exact ExactFacts ExactGeometry.
Local Open Scope R_scope.
#[local] Hint Rewrite int_exact xsub_fin xadd_fin xmul_fin xlt_fin xeq_fin : exact_ops.

Lemma square_nonneg (a : R) : 0 <= a * a.
Proof. apply Rle_0_sqr. Qed.

Lemma sum_squares_nonneg (a b : R) : 0 <= a * a + b * b.
Proof. pose proof (square_nonneg a). pose proof (square_nonneg b). lra. Qed.

Lemma sum_squares_zero (a b : R) : a * a + b * b = 0 -> a = 0 /\ b = 0.
Proof. intros E. split; nra. Qed.

(** The projection parameter [t] of a point against a segment, and the
    squared distances to the start, to the end and to the projection. *)
Lemma projection_bounds (A B C D t : R) :
  0 < C * C + D * D ->
  t * (C * C + D * D) = A * C + B * D ->
  (t < 0 -> A * A + B * B <= (A - C) * (A - C) + (B - D) * (B - D)) /\
  (1 < t -> (A - C) * (A - C) + (B - D) * (B - D) <= A * A + B * B) /\
  (0 <= t -> t <= 1 ->
   (A - t * C) * (A - t * C) + (B - t * D) * (B - t * D) <= A * A + B * B /\
   (A - t * C) * (A - t * C) + (B - t * D) * (B - t * D)
   <= (A - C) * (A - C) + (B - D) * (B - D)).
Proof.
  intros Hpos Ht.
  remember (C * C + D * D) as lenSq eqn:Elen.
  remember (A * C + B * D) as dot eqn:Edot.
  assert (EPE : (A - C) * (A - C) + (B - D) * (B - D)
                = A * A + B * B - 2 * dot + lenSq) by (subst; ring).
  assert (EPP : (A - t * C) * (A - t * C) + (B - t * D) * (B - t * D)
                = A * A + B * B - 2 * t * dot + t * (t * lenSq)) by (subst; ring).
  rewrite EPE, EPP, Ht. clear EPE EPP Elen Edot.
  subst dot.
  assert (Hsq : 0 <= t * t * lenSq)
    by (apply Rmult_le_pos; [apply square_nonneg|lra]).
  assert (Hsq1 : 0 <= (1 - t) * (1 - t) * lenSq)
    by (apply Rmult_le_pos; [apply square_nonneg|lra]).
  split; [|split; [|split]].
  - intros Hneg. assert (t * lenSq <= 0) by nra. lra.
  - intros Hbig. assert (lenSq <= t * lenSq) by nra. lra.
  - lra.
  - lra.
Qed.

Lemma pointToLineDistance_exact (p s e : TrackPoint xreal) :
  finite_point p -> finite_point s -> finite_point e ->
  pointToLineDistance p s e
  = Fin (segment_distance (rx p) (ry p) (rx s) (ry s) (rx e) (ry e)).
Proof.
  intros [Epx Epy] [Esx Esy] [Eex Eey].
  unfold pointToLineDistance, segment_distance.
  rewrite Epx, Epy, Esx, Esy, Eex, Eey.
  generalize (rx p) (ry p) (rx s) (ry s) (rx e) (ry e). clear.
  intros x y sx sy ex ey.
  exact_ops. unfold Reqb.
  destruct (Req_dec_T ((ex - sx) * (ex - sx) + (ey - sy) * (ey - sy)) 0) as [Hz|Hnz].
  - rewrite xsqrt_fin by apply sum_squares_nonneg. reflexivity.
  - rewrite xdiv_fin by exact Hnz. exact_ops. cbv zeta. unfold Rltb.
    destruct (Rlt_dec _ 0).
    + exact_ops. rewrite xsqrt_fin by apply sum_squares_nonneg. reflexivity.
    + destruct (Rlt_dec 1 _).
      * exact_ops. rewrite xsqrt_fin by apply sum_squares_nonneg. reflexivity.
      * exact_ops. rewrite xsqrt_fin by apply sum_squares_nonneg. reflexivity.
Qed.

Lemma segment_distance_bounds (x y sx sy ex ey : R) :
  let d := segment_distance x y sx sy ex ey in
  0 <= d /\ d <= dist x y sx sy /\ d <= dist x y ex ey /\
  (sx = ex -> sy = ey -> d = dist x y sx sy).
Proof.
  unfold segment_distance, dist. cbv zeta.
  destruct (Req_dec_T ((ex - sx) * (ex - sx) + (ey - sy) * (ey - sy)) 0) as [Hz|Hnz].
  - destruct (@sum_squares_zero _ _ Hz) as [HC HD].
    split; [apply sqrt_pos|]. split; [lra|]. split; [|reflexivity].
    replace ex with sx by lra. replace ey with sy by lra. lra.
  - assert (Hpos : 0 < (ex - sx) * (ex - sx) + (ey - sy) * (ey - sy)).
    { pose proof (sum_squares_nonneg (ex - sx) (ey - sy)). lra. }
    remember (((x - sx) * (ex - sx) + (y - sy) * (ey - sy))
              / ((ex - sx) * (ex - sx) + (ey - sy) * (ey - sy))) as t eqn:Et.
    assert (Ht : t * ((ex - sx) * (ex - sx) + (ey - sy) * (ey - sy))
                 = (x - sx) * (ex - sx) + (y - sy) * (ey - sy))
      by (subst t; field; exact Hnz).
    destruct (@projection_bounds (x - sx) (y - sy) (ex - sx) (ey - sy) t Hpos Ht)
      as (Hbefore & Hafter & Hbetween).
    replace (x - sx - (ex - sx)) with (x - ex) in * by ring.
    replace (y - sy - (ey - sy)) with (y - ey) in * by ring.
    split; [apply sqrt_pos|].
    assert (Hdegenerate : sx = ex -> sy = ey -> False).
    { intros -> ->. apply Hnz. ring. }
    destruct (Rlt_dec t 0) as [Hneg|Hnn].
    + split; [lra|]. split; [|intros; exfalso; auto].
      apply sqrt_le_1_alt. auto.
    + destruct (Rlt_dec 1 t) as [Hbig|Hsmall].
      * split; [|split; [lra|intros; exfalso; auto]].
        apply sqrt_le_1_alt. auto.
      * destruct Hbetween as [Hs He]; [lra|lra|].
        replace (x - (sx + t * (ex - sx))) with (x - sx - t * (ex - sx)) by ring.
        replace (y - (sy + t * (ey - sy))) with (y - sy - t * (ey - sy)) by ring.
        split; [|split; [|intros; exfalso; auto]]; apply sqrt_le_1_alt; assumption.
Qed.

(** ** Sums over a buffer *)

Lemma of_nat_exact (n : nat) : (of_nat n : xreal) = Fin (INR n).
Proof. unfold of_nat. rewrite int_exact, <- INR_IZR_INZ. reflexivity. Qed.

Lemma fold_sum_exact (f : TrackPoint xreal -> xreal) (g : TrackPoint xreal -> R)
    (a : list (TrackPoint xreal)) (z : R) :
  (forall p, In p a -> f p = Fin (g p)) ->
  fold_left (fun acc p => (acc + f p)%js) a (Fin z)
  = Fin (fold_left (fun r p => r + g p) a z).
Proof.
  revert z. induction a as [|p a IH]; intros z Hf; simpl; [reflexivity|].
  rewrite (Hf p) by (left; reflexivity).
  change (Fin z + Fin (g p))%js with (Fin (z + g p)).
  apply IH. intros q Hq. apply Hf. right. assumption.
Qed.

Lemma fold_sum_nonneg (g : TrackPoint xreal -> R) (a : list (TrackPoint xreal))
    (z : R) :
  (forall p, In p a -> 0 <= g p) -> 0 <= z ->
  0 <= fold_left (fun r p => r + g p) a z.
Proof.
  revert z. induction a as [|p a IH]; intros z Hg Hz; simpl; [assumption|].
  apply IH.
  - intros q Hq. apply Hg. right. assumption.
  - pose proof (Hg p (or_introl eq_refl)). lra.
Qed.

Lemma fold_sum_const (g : TrackPoint xreal -> R) (a : list (TrackPoint xreal))
    (z c : R) :
  (forall p, In p a -> g p = c) ->
  fold_left (fun r p => r + g p) a z = z + INR (length a) * c.
Proof.
  revert z. induction a as [|p a IH]; intros z Hg.
  - simpl. lra.
  - cbn [fold_left]. rewrite IH by (intros q Hq; apply Hg; right; assumption).
    rewrite (Hg p) by (left; reflexivity).
    change (length (p :: a)) with (S (length a)). rewrite S_INR. lra.
Qed.

Lemma mean_nonneg (g : TrackPoint xreal -> R) (a : list (TrackPoint xreal)) :
  a <> [] -> (forall p, In p a -> 0 <= g p) -> 0 <= mean g a.
Proof.
  intros Hne Hg. unfold mean, total.
  apply Rmult_le_pos; [apply fold_sum_nonneg; [assumption|lra]|].
  apply Rlt_le, Rinv_0_lt_compat, lt_0_INR.
  destruct a; [congruence|simpl; lia].
Qed.

Lemma length_INR_nonzero (A : Type) (a : list A) : a <> [] -> INR (length a) <> 0.
Proof.
  intros Hne. apply not_0_INR. destruct a; [congruence|simpl; lia].
Qed.

(** ** The line candidate *)

Lemma detectLine_exact (s : ShapeRecognizer xreal) (start end_ : TrackPoint xreal)
    (mid : list (TrackPoint xreal)) :
  trackPoints s = start :: mid ++ [end_] ->
  mid <> [] ->
  Forall finite_point (trackPoints s) ->
  exists c,
    0 <= c <= 1 /\
    detectLine s
    = Some ({| shape := shape_line; fit_confidence := Fin c;
               points := Some (LinePoints start end_) |}, s).
Proof.
  intros Ea Hmid Hfin.
  rewrite (@detectLine_fit _ _ s start end_ mid Ea). cbv zeta.
  rewrite Ea in Hfin.
  assert (Hs : finite_point start) by (inversion Hfin; assumption).
  assert (Hm : forall p, In p mid -> finite_point p).
  { intros p Hp. rewrite Forall_forall in Hfin. apply Hfin.
    right. apply in_or_app. left. assumption. }
  assert (He : finite_point end_).
  { rewrite Forall_forall in Hfin. apply Hfin.
    right. apply in_or_app. right. left. reflexivity. }
  rewrite int_exact.
  rewrite (@fold_sum_exact
             (fun p => pointToLineDistance p start end_)
             (fun p => segment_distance (rx p) (ry p) (rx start) (ry start)
                                        (rx end_) (ry end_)))
    by (intros p Hp; apply pointToLineDistance_exact; auto).
  set (T := fold_left _ mid 0).
  assert (HT : 0 <= T).
  { subst T. apply fold_sum_nonneg; [|lra].
    intros p _. apply segment_distance_bounds. }
  assert (Hn : IZR (Z.of_nat (length (trackPoints s)) - 2) > 0).
  { rewrite Ea. apply IZR_lt.
    change (length (start :: mid ++ [end_])) with (S (length (mid ++ [end_]))).
    rewrite length_app. destruct mid; [congruence|]. cbn [length]. lia. }
  rewrite !int_exact.
  rewrite xdiv_fin by lra. exact_ops. rewrite xmax_fin.
  assert (Havg : 0 <= T / IZR (Z.of_nat (length (trackPoints s)) - 2)).
  { apply Rmult_le_pos; [assumption|]. apply Rlt_le, Rinv_0_lt_compat. lra. }
  match goal with
  | |- context [if ?b then _ else Fin 0] => destruct b
  end.
  - unfold Rltb. destruct (Rlt_dec 0 _).
    + eexists. split; [|reflexivity]. lra.
    + exists 0. split; [lra|reflexivity].
  - exists 0. split; [lra|reflexivity].
Qed.

(** ** The circle candidate *)

Lemma fold_pair_exact (F : xreal * xreal -> TrackPoint xreal -> xreal * xreal)
    (a : list (TrackPoint xreal)) (zx zy : R) :
  (forall x y p, F (x, y) p = (x + tx p, y + ty p)%js) ->
  Forall finite_point a ->
  fold_left F a (Fin zx, Fin zy)
  = (Fin (fold_left (fun r p => r + rx p) a zx),
     Fin (fold_left (fun r p => r + ry p) a zy)).
Proof.
  intros HF. revert zx zy. induction a as [|p a IH]; intros zx zy Hfin.
  - reflexivity.
  - inversion Hfin as [|? ? [Ex Ey] Hrest]; subst.
    cbn [fold_left]. rewrite HF, Ex, Ey.
    change (Fin zx + Fin (rx p))%js with (Fin (zx + rx p)).
    change (Fin zy + Fin (ry p))%js with (Fin (zy + ry p)).
    apply IH. assumption.
Qed.

Lemma radius_exact (cx cy : R) (p : TrackPoint xreal) :
  finite_point p ->
  Math_sqrt (Math_pow2 (tx p - Fin cx) + Math_pow2 (ty p - Fin cy))%js
  = Fin (radius_at cx cy p).
Proof.
  intros [Ex Ey]. rewrite Ex, Ey. unfold Math_pow2, radius_at, dist. exact_ops.
  rewrite xsqrt_fin by apply sum_squares_nonneg. reflexivity.
Qed.

Lemma detectCircle_exact (s : ShapeRecognizer xreal) :
  trackPoints s <> [] ->
  Forall finite_point (trackPoints s) ->
  let a := trackPoints s in
  let cx := mean rx a in
  let cy := mean ry a in
  let avgRadius := mean (radius_at cx cy) a in
  let avgDeviation := mean (fun p => Rabs (radius_at cx cy p - avgRadius)) a in
  detectCircle s
  = Some ({| shape := shape_circle;
             fit_confidence :=
               if Rltb (5 / 100) avgRadius
               then (if Rltb 0 (1 - avgDeviation * 15)
                     then Fin (1 - avgDeviation * 15) else Fin 0)
               else Fin 0;
             points := Some (CirclePoints
                               {| tx := Fin cx; ty := Fin cy;
                                  timestamp := wallClock s 0%nat |}
                               (Fin avgRadius)) |},
          after_reading s).
Proof.
  intros Hne Hfin a cx cy avgRadius avgDeviation.
  pose proof (@length_INR_nonzero _ _ Hne) as Hn. fold a in Hn.
  unfold detectCircle. unfold bind at 1, read. fold a.
  rewrite !int_exact.
  rewrite (@fold_pair_exact _ a 0 0 (fun x y p => eq_refl) Hfin).
  cbv beta iota zeta.
  rewrite !of_nat_exact. rewrite !xdiv_fin by exact Hn.
  fold (total rx a) (total ry a). fold (mean rx a) (mean ry a). fold cx cy.
  unfold bind at 1, Date_now.
  rewrite (@fold_sum_exact
             (fun point => Math_sqrt (Math_pow2 (tx point - Fin cx)
                                      + Math_pow2 (ty point - Fin cy))%js)
             (radius_at cx cy) a 0)
    by (intros p Hp; apply radius_exact;
        exact (proj1 (Forall_forall _ _) Hfin p Hp)).
  rewrite xdiv_fin by exact Hn.
  fold (total (radius_at cx cy) a). fold (mean (radius_at cx cy) a).
  fold avgRadius.
  rewrite (@fold_sum_exact
             (fun point => Math_abs
                (Math_sqrt (Math_pow2 (tx point - Fin cx)
                            + Math_pow2 (ty point - Fin cy)) - Fin avgRadius)%js)
             (fun p => Rabs (radius_at cx cy p - avgRadius)) a 0)
    by (intros p Hp;
        rewrite (@radius_exact cx cy p (proj1 (Forall_forall _ _) Hfin p Hp));
        reflexivity).
  rewrite xdiv_fin by exact Hn.
  fold (total (fun p => Rabs (radius_at cx cy p - avgRadius)) a).
  fold (mean (fun p => Rabs (radius_at cx cy p - avgRadius)) a).
  fold avgDeviation.
  rewrite dec_exact. exact_ops. rewrite xmax_fin.
  change (10 ^ Z.of_nat 2)%Z with 100%Z. reflexivity.
Qed.

(** ** The rectangle candidate *)

Lemma xmin_fin (a b : R) : xmin (Fin a) (Fin b) = Fin (rmin a b).
Proof.
  unfold xmin, rmin. rewrite xlt_fin. unfold Rltb.
  destruct (Rlt_dec b a); reflexivity.
Qed.

Lemma xmax_rmax (a b : R) : xmax (Fin a) (Fin b) = Fin (rmax a b).
Proof.
  unfold xmax, rmax. rewrite xlt_fin. unfold Rltb.
  destruct (Rlt_dec a b); reflexivity.
Qed.

Lemma fold_box_finite
    (F : xreal * xreal * xreal * xreal -> TrackPoint xreal
         -> xreal * xreal * xreal * xreal)
    (a : list (TrackPoint xreal)) (x0 y0 x1 y1 : R) :
  (forall a b c d p,
      F (a, b, c, d) p
      = (Math_min a (tx p), Math_min b (ty p),
         Math_max c (tx p), Math_max d (ty p))) ->
  Forall finite_point a ->
  fold_left F a (Fin x0, Fin y0, Fin x1, Fin y1)
  = (Fin (fold_left (fun m q => rmin m (rx q)) a x0),
     Fin (fold_left (fun m q => rmin m (ry q)) a y0),
     Fin (fold_left (fun m q => rmax m (rx q)) a x1),
     Fin (fold_left (fun m q => rmax m (ry q)) a y1)).
Proof.
  intros HF. revert x0 y0 x1 y1.
  induction a as [|p a IH]; intros x0 y0 x1 y1 Hfin.
  - reflexivity.
  - inversion Hfin as [|? ? [Ex Ey] Hrest]; subst.
    cbn [fold_left]. rewrite HF, Ex, Ey.
    cbn [Math_min Math_max exact]. rewrite !xmin_fin, !xmax_rmax.
    apply IH. assumption.
Qed.

Lemma fold_box_exact
    (F : xreal * xreal * xreal * xreal -> TrackPoint xreal
         -> xreal * xreal * xreal * xreal)
    (a : list (TrackPoint xreal)) :
  (forall a b c d p,
      F (a, b, c, d) p
      = (Math_min a (tx p), Math_min b (ty p),
         Math_max c (tx p), Math_max d (ty p))) ->
  a <> [] -> Forall finite_point a ->
  fold_left F a (Infinity, Infinity, neg Infinity, neg Infinity)
  = (Fin (minimum rx a), Fin (minimum ry a),
     Fin (maximum rx a), Fin (maximum ry a)).
Proof.
  intros HF Hne Hfin. destruct a as [|p a]; [congruence|].
  inversion Hfin as [|? ? [Ex Ey] Hrest]; subst.
  cbn [fold_left]. rewrite HF, Ex, Ey.
  change (Math_min Infinity (Fin (rx p))) with (Fin (rx p)).
  change (Math_min Infinity (Fin (ry p))) with (Fin (ry p)).
  change (Math_max (neg Infinity) (Fin (rx p))) with (Fin (rx p)).
  change (Math_max (neg Infinity) (Fin (ry p))) with (Fin (ry p)).
  apply (@fold_box_finite F a _ _ _ _ HF Hrest).
Qed.

(** The least value is below the greatest. *)
Lemma fold_rmin_le (g : TrackPoint xreal -> R) (a : list (TrackPoint xreal))
    (m : R) :
  fold_left (fun m q => rmin m (g q)) a m <= m.
Proof.
  revert m. induction a as [|p a IH]; intros m; cbn [fold_left]; [lra|].
  specialize (IH (rmin m (g p))). unfold rmin in *.
  destruct (Rlt_dec (g p) m); lra.
Qed.

Lemma fold_rmax_ge (g : TrackPoint xreal -> R) (a : list (TrackPoint xreal))
    (m : R) :
  m <= fold_left (fun m q => rmax m (g q)) a m.
Proof.
  revert m. induction a as [|p a IH]; intros m; cbn [fold_left]; [lra|].
  specialize (IH (rmax m (g p))). unfold rmax in *.
  destruct (Rlt_dec m (g p)); lra.
Qed.

Lemma fold_rmin_bound (g : TrackPoint xreal -> R) (a : list (TrackPoint xreal))
    (m : R) (p : TrackPoint xreal) :
  In p a -> fold_left (fun m q => rmin m (g q)) a m <= g p.
Proof.
  revert m. induction a as [|q a IH]; intros m Hin; [destruct Hin|].
  cbn [fold_left]. destruct Hin as [->|Hin].
  - pose proof (fold_rmin_le g a (rmin m (g p))) as H. unfold rmin in *.
    destruct (Rlt_dec (g p) m); lra.
  - apply IH. assumption.
Qed.

Lemma fold_rmax_bound (g : TrackPoint xreal -> R) (a : list (TrackPoint xreal))
    (m : R) (p : TrackPoint xreal) :
  In p a -> g p <= fold_left (fun m q => rmax m (g q)) a m.
Proof.
  revert m. induction a as [|q a IH]; intros m Hin; [destruct Hin|].
  cbn [fold_left]. destruct Hin as [->|Hin].
  - pose proof (fold_rmax_ge g a (rmax m (g p))) as H. unfold rmax in *.
    destruct (Rlt_dec m (g p)); lra.
  - apply IH. assumption.
Qed.

Lemma minimum_bound (g : TrackPoint xreal -> R) (a : list (TrackPoint xreal))
    (p : TrackPoint xreal) :
  In p a -> minimum g a <= g p.
Proof.
  destruct a as [|q a]; [intros []|]. intros [->|Hin]; unfold minimum.
  - apply fold_rmin_le.
  - apply fold_rmin_bound. assumption.
Qed.

Lemma maximum_bound (g : TrackPoint xreal -> R) (a : list (TrackPoint xreal))
    (p : TrackPoint xreal) :
  In p a -> g p <= maximum g a.
Proof.
  destruct a as [|q a]; [intros []|]. intros [->|Hin]; unfold maximum.
  - apply fold_rmax_ge.
  - apply fold_rmax_bound. assumption.
Qed.

(** Points counted one by one are no more than the points there are. *)
Lemma fold_count_le (A : Type) (c : A -> bool) (a : list A) (z : nat) :
  (fold_left (fun n p => if c p then S n else n) a z <= z + length a)%nat.
Proof.
  revert z. induction a as [|p a IH]; intros z; cbn [fold_left length]; [lia|].
  specialize (IH (if c p then S z else z)). destruct (c p); lia.
Qed.

Lemma detectRectangle_exact (s : ShapeRecognizer xreal) :
  trackPoints s <> [] ->
  Forall finite_point (trackPoints s) ->
  let a := trackPoints s in
  let width := maximum rx a - minimum rx a in
  let height := maximum ry a - minimum ry a in
  exists c,
    detectRectangle s
    = Some ({| shape := shape_rectangle;
               fit_confidence := Fin c;
               points := Some (RectanglePoints
                                 {| tx := Fin (minimum rx a);
                                    ty := Fin (minimum ry a);
                                    timestamp := wallClock s 0%nat |}
                                 {| tx := Fin (maximum rx a);
                                    ty := Fin (maximum ry a);
                                    timestamp := wallClock s 1%nat |}) |},
            after_reading (after_reading s))
    /\ 0 <= c <= 1
    /\ (1 / 10 < width -> 1 / 10 < height ->
        c <= rmin width height / rmax width height)
    /\ (~ (1 / 10 < width /\ 1 / 10 < height) -> c = 0).
Proof.
  intros Hne Hfin a width height.
  pose proof (@length_INR_nonzero _ _ Hne) as Hn. fold a in Hn.
  unfold detectRectangle. unfold bind at 1, read. fold a.
  rewrite (@fold_box_exact _ a (fun a b c d p => eq_refl) Hne Hfin).
  cbv beta iota zeta.
  match goal with
  | |- context [fold_left ?f a 0%nat] =>
      pose proof (@fold_count_le _
                    (fun point : TrackPoint xreal =>
                       (dec 5 2 >? Math_abs (tx point - Fin (minimum rx a)))%js
                       || (dec 5 2 >? Math_abs (tx point - Fin (maximum rx a)))%js
                       || (dec 5 2 >? Math_abs (ty point - Fin (minimum ry a)))%js
                       || (dec 5 2 >? Math_abs (ty point - Fin (maximum ry a)))%js)
                    a 0%nat) as He;
      cbv beta in He; set (e := fold_left f a 0%nat) in *
  end.
  clearbody e. cbn [Nat.add] in He.
  assert (Hratio : 0 <= INR e / INR (length a) <= 1).
  { assert (0 < INR (length a)).
    { pose proof (pos_INR (length a)). lra. }
    pose proof (pos_INR e). pose proof (le_INR _ _ He).
    split.
    - apply Rmult_le_pos; [assumption|]. apply Rlt_le, Rinv_0_lt_compat. assumption.
    - apply (Rmult_le_reg_r (INR (length a))); [assumption|].
      unfold Rdiv. rewrite Rmult_assoc, Rinv_l by assumption. lra. }
  unfold bind, Date_now, ret.
  rewrite !dec_exact, !of_nat_exact. exact_ops.
  fold width height.
  change (10 ^ Z.of_nat 1)%Z with 10%Z.
  rewrite xdiv_fin by exact Hn.
  cbn [Math_min Math_max exact]. rewrite xmin_fin, xmax_rmax.
  unfold Rltb.
  destruct (Rlt_dec (1 / 10) width) as [Hw|Hw];
    [destruct (Rlt_dec (1 / 10) height) as [Hh|Hh]|]; cbn [andb].
  - assert (Hmax : 0 < rmax width height).
    { unfold rmax. destruct (Rlt_dec width height); lra. }
    assert (Haspect : 0 <= rmin width height / rmax width height <= 1).
    { assert (0 <= rmin width height <= rmax width height).
      { unfold rmin, rmax.
        destruct (Rlt_dec height width), (Rlt_dec width height); lra. }
      split.
      - apply Rmult_le_pos; [lra|]. apply Rlt_le, Rinv_0_lt_compat. assumption.
      - apply (Rmult_le_reg_r (rmax width height)); [assumption|].
        unfold Rdiv. rewrite Rmult_assoc, Rinv_l by lra. lra. }
    cbn [div exact]. rewrite xdiv_fin by lra. exact_ops.
    eexists. split; [reflexivity|].
    split; [|split].
    + split; [apply Rmult_le_pos; lra|].
      apply Rle_trans with (1 * (rmin width height / rmax width height)); [|lra].
      apply Rmult_le_compat_r; lra.
    + intros _ _.
      apply Rle_trans with (1 * (rmin width height / rmax width height)); [|lra].
      apply Rmult_le_compat_r; lra.
    + intros Hno. exfalso. apply Hno. split; assumption.
  - exists 0. split; [reflexivity|]. split; [lra|]. split; [intros; lra|reflexivity].
  - exists 0. split; [reflexivity|]. split; [lra|]. split; [intros; lra|reflexivity].
Qed.

(** ** The distance to a segment is the distance to its nearest point *)

Lemma quadratic_gap (A B C D t u v : R) :
  t * (C * C + D * D) = A * C + B * D ->
  ((A - u * C) * (A - u * C) + (B - u * D) * (B - u * D))
  - ((A - v * C) * (A - v * C) + (B - v * D) * (B - v * D))
  = (C * C + D * D) * ((u - v) * (u + v - 2 * t)).
Proof.
  intros Ht.
  replace ((A - u * C) * (A - u * C) + (B - u * D) * (B - u * D)
           - ((A - v * C) * (A - v * C) + (B - v * D) * (B - v * D)))
    with ((u - v) * ((u + v) * (C * C + D * D) - 2 * (A * C + B * D))) by ring.
  rewrite <- Ht. ring.
Qed.

Lemma segment_distance_nearest (x y sx sy ex ey : R) :
  let d := segment_distance x y sx sy ex ey in
  (exists u, 0 <= u <= 1 /\ d = distance_along x y sx sy ex ey u) /\
  (forall u, 0 <= u <= 1 -> d <= distance_along x y sx sy ex ey u).
Proof.
  unfold segment_distance, distance_along, dist. cbv zeta.
  assert (Eat : forall u,
             (x - (sx + u * (ex - sx))) * (x - (sx + u * (ex - sx)))
             + (y - (sy + u * (ey - sy))) * (y - (sy + u * (ey - sy)))
             = (x - sx - u * (ex - sx)) * (x - sx - u * (ex - sx))
               + (y - sy - u * (ey - sy)) * (y - sy - u * (ey - sy)))
    by (intros u; ring).
  destruct (Req_dec_T ((ex - sx) * (ex - sx) + (ey - sy) * (ey - sy)) 0) as [Hz|Hnz].
  - destruct (@sum_squares_zero _ _ Hz) as [HC HD].
    assert (Esame : forall u,
               (x - (sx + u * (ex - sx))) * (x - (sx + u * (ex - sx)))
               + (y - (sy + u * (ey - sy))) * (y - (sy + u * (ey - sy)))
               = (x - sx) * (x - sx) + (y - sy) * (y - sy)).
    { intros u. rewrite HC, HD. ring. }
    split.
    + exists 0. split; [lra|]. rewrite Esame. reflexivity.
    + intros u _. rewrite Esame. lra.
  - assert (Hpos : 0 < (ex - sx) * (ex - sx) + (ey - sy) * (ey - sy)).
    { pose proof (sum_squares_nonneg (ex - sx) (ey - sy)). lra. }
    remember (((x - sx) * (ex - sx) + (y - sy) * (ey - sy))
              / ((ex - sx) * (ex - sx) + (ey - sy) * (ey - sy))) as t eqn:Et.
    assert (Ht : t * ((ex - sx) * (ex - sx) + (ey - sy) * (ey - sy))
                 = (x - sx) * (ex - sx) + (y - sy) * (ey - sy))
      by (subst t; field; exact Hnz).
    pose proof (fun u v => @quadratic_gap (x - sx) (y - sy) (ex - sx) (ey - sy) t u v Ht)
      as Hgap.
    destruct (Rlt_dec t 0) as [Hneg|Hnn]; [|destruct (Rlt_dec 1 t) as [Hbig|Hsmall]].
    + split.
      * exists 0. split; [lra|]. f_equal. ring.
      * intros u Hu. apply sqrt_le_1_alt. rewrite Eat.
        specialize (Hgap u 0).
        assert (0 <= (u - 0) * (u + 0 - 2 * t)) by (apply Rmult_le_pos; lra).
        assert (0 <= ((ex - sx) * (ex - sx) + (ey - sy) * (ey - sy))
                     * ((u - 0) * (u + 0 - 2 * t)))
          by (apply Rmult_le_pos; lra).
        replace (x - sx - 0 * (ex - sx)) with (x - sx) in Hgap by ring.
        replace (y - sy - 0 * (ey - sy)) with (y - sy) in Hgap by ring.
        lra.
    + split.
      * exists 1. split; [lra|]. f_equal. ring.
      * intros u Hu. apply sqrt_le_1_alt. rewrite Eat.
        specialize (Hgap u 1).
        assert (0 <= (u - 1) * (u + 1 - 2 * t)).
        { replace ((u - 1) * (u + 1 - 2 * t)) with ((1 - u) * (2 * t - u - 1)) by ring.
          apply Rmult_le_pos; lra. }
        assert (0 <= ((ex - sx) * (ex - sx) + (ey - sy) * (ey - sy))
                     * ((u - 1) * (u + 1 - 2 * t)))
          by (apply Rmult_le_pos; lra).
        replace (x - sx - 1 * (ex - sx)) with (x - ex) in Hgap by ring.
        replace (y - sy - 1 * (ey - sy)) with (y - ey) in Hgap by ring.
        lra.
    + split.
      * exists t. split; [lra|]. reflexivity.
      * intros u Hu. apply sqrt_le_1_alt. rewrite Eat.
        specialize (Hgap u t).
        assert (0 <= (u - t) * (u + t - 2 * t)).
        { replace ((u - t) * (u + t - 2 * t)) with ((u - t) * (u - t)) by ring.
          apply square_nonneg. }
        assert (0 <= ((ex - sx) * (ex - sx) + (ey - sy) * (ey - sy))
                     * ((u - t) * (u + t - 2 * t)))
          by (apply Rmult_le_pos; lra).
        replace (x - (sx + t * (ex - sx))) with (x - sx - t * (ex - sx)) by ring.
        replace (y - (sy + t * (ey - sy))) with (y - sy - t * (ey - sy)) by ring.
        lra.
Qed.

Lemma fold_rmin_attained (g : TrackPoint xreal -> R) (a : list (TrackPoint xreal))
    (m : R) :
  fold_left (fun m q => rmin m (g q)) a m = m \/
  exists p, In p a /\ g p = fold_left (fun m q => rmin m (g q)) a m.
Proof.
  revert m. induction a as [|q a IH]; intros m; cbn [fold_left]; [left; reflexivity|].
  destruct (IH (rmin m (g q))) as [E|(p & Hp & E)].
  - rewrite E. unfold rmin. destruct (Rlt_dec (g q) m).
    + right. exists q. split; [left; reflexivity|reflexivity].
    + left. reflexivity.
  - right. exists p. split; [right; assumption|assumption].
Qed.

Lemma fold_rmax_attained (g : TrackPoint xreal -> R) (a : list (TrackPoint xreal))
    (m : R) :
  fold_left (fun m q => rmax m (g q)) a m = m \/
  exists p, In p a /\ g p = fold_left (fun m q => rmax m (g q)) a m.
Proof.
  revert m. induction a as [|q a IH]; intros m; cbn [fold_left]; [left; reflexivity|].
  destruct (IH (rmax m (g q))) as [E|(p & Hp & E)].
  - rewrite E. unfold rmax. destruct (Rlt_dec m (g q)).
    + right. exists q. split; [left; reflexivity|reflexivity].
    + left. reflexivity.
  - right. exists p. split; [right; assumption|assumption].
Qed.

Lemma minimum_attained (g : TrackPoint xreal -> R) (a : list (TrackPoint xreal)) :
  a <> [] -> exists p, In p a /\ g p = minimum g a.
Proof.
  destruct a as [|q a]; [congruence|]. intros _. unfold minimum.
  destruct (fold_rmin_attained g a (g q)) as [E|(p & Hp & E)].
  - exists q. split; [left; reflexivity|symmetry; assumption].
  - exists p. split; [right; assumption|assumption].
Qed.

Lemma maximum_attained (g : TrackPoint xreal -> R) (a : list (TrackPoint xreal)) :
  a <> [] -> exists p, In p a /\ g p = maximum g a.
Proof.
  destruct a as [|q a]; [congruence|]. intros _. unfold maximum.
  destruct (fold_rmax_attained g a (g q)) as [E|(p & Hp & E)].
  - exists q. split; [left; reflexivity|symmetry; assumption].
  - exists p. split; [right; assumption|assumption].
Qed.

Lemma detectCircle_range (s : ShapeRecognizer xreal) :
  trackPoints s <> [] ->
  Forall finite_point (trackPoints s) ->
  exists c center radius,
    0 <= c <= 1 /\
    detectCircle s
    = Some ({| shape := shape_circle; fit_confidence := Fin c;
               points := Some (CirclePoints center radius) |}, after_reading s).
Proof.
  intros Hne Hfin. rewrite (@detectCircle_exact s Hne Hfin). cbv zeta.
  set (cx := mean rx (trackPoints s)). set (cy := mean ry (trackPoints s)).
  set (avgRadius := mean (radius_at cx cy) (trackPoints s)).
  set (avgDeviation := mean _ (trackPoints s)).
  assert (Hdev : 0 <= avgDeviation).
  { apply mean_nonneg; [assumption|]. intros p _. apply Rabs_pos. }
  unfold Rltb.
  destruct (Rlt_dec (5 / 100) avgRadius);
    [destruct (Rlt_dec 0 (1 - avgDeviation * 15))|].
  - eexists _, _, _. split; [|reflexivity]. lra.
  - exists 0. eexists _, _. split; [lra|reflexivity].
  - exists 0. eexists _, _. split; [lra|reflexivity].
Qed.









End ExactFits.
